(** * InshaUnNazm: the review workflow of the contest front end

    A shallow embedding of the state handlers of the React pages under
    [frontend/src/pages] and of the types of [frontend/src/types].  A page is
    a record holding its [useState] cells; a handler is a function from the
    page state to a small program that may call the HTTP back end and then
    yields the next page state.  Handlers are taken to run one at a time,
    from the state of the render in which they were created. *)

From Stdlib Require Import List NArith ZArith QArith Bool String Ascii Lia.
From Stdlib Require Import Permutation.
Import ListNotations.

Set Implicit Arguments.
Close Scope Q_scope.

(* ================================================================== *)
(** ** JavaScript values *)

Module Js.

(** A JavaScript string is a sequence of UTF-16 code units. *)
Definition jsstring := list N.

(** A string literal of the source, code unit by code unit. *)
Definition lit (s : string) : jsstring :=
  map N_of_ascii (list_ascii_of_string s).

(** [a === b] on strings. *)
Fixpoint streq (a b : jsstring) : bool :=
  match a, b with
  | [], [] => true
  | x :: a', y :: b' => N.eqb x y && streq a' b'
  | _, _ => false
  end.

(** Truthiness of a string: only the empty string is falsy. *)
Definition truthy (s : jsstring) : bool :=
  match s with [] => false | _ :: _ => true end.

(** Truthiness of [string | null | undefined]. *)
Definition truthy_opt (o : option jsstring) : bool :=
  match o with Some s => truthy s | None => false end.

(** [x || undefined] on [string | null]: a falsy string becomes absent. *)
Definition or_undefined (o : option jsstring) : option jsstring :=
  if truthy_opt o then o else None.

(** [x || d] on [string | null]. *)
Definition or_default (o : option jsstring) (d : jsstring) : jsstring :=
  match o with
  | Some s => if truthy s then s else d
  | None => d
  end.

(** White space and line terminators, the code units that
    [String.prototype.trim] strips. *)
Definition isWhiteSpace (c : N) : bool :=
  match c with
  | 9 | 10 | 11 | 12 | 13 | 32 | 160 | 5760
  | 8192 | 8193 | 8194 | 8195 | 8196 | 8197 | 8198 | 8199 | 8200 | 8201
  | 8202 | 8232 | 8233 | 8239 | 8287 | 12288 | 65279 => true
  | _ => false
  end%N.

Fixpoint trimStart (s : jsstring) : jsstring :=
  match s with
  | [] => []
  | c :: s' => if isWhiteSpace c then trimStart s' else s
  end.

Definition trimEnd (s : jsstring) : jsstring := rev (trimStart (rev s)).

(** [s.trim()]. *)
Definition trim (s : jsstring) : jsstring := trimEnd (trimStart s).

(** [s.startsWith(p)]. *)
Fixpoint startsWith (s p : jsstring) : bool :=
  match p, s with
  | [], _ => true
  | _ :: _, [] => false
  | y :: p', x :: s' => N.eqb x y && startsWith s' p'
  end.

(** [s.includes(q)]: [q] occurs in [s] as a run of code units. *)
Fixpoint includes (s q : jsstring) : bool :=
  startsWith s q ||
  match s with
  | [] => false
  | _ :: s' => includes s' q
  end.

(** [s.toLowerCase()] follows the case tables of Unicode and is not a
    map over code units: a capital sigma lowers by its place in the word,
    and U+0130 lowers to two code units.  The search below takes the
    built-in as the parameter [toLowerCase], and what is proved of it holds
    for every function in that place. *)


(** [s.toLowerCase()] on a string of Basic Latin code units: there the
    built-in moves A-Z to a-z and leaves every other code unit.  The
    examples apply it to such strings only. *)
Definition lowerBasicLatin (s : jsstring) : jsstring :=
  map (fun c => if ((65 <=? c) && (c <=? 90))%N then (c + 32)%N else c) s.

(** [string | null | undefined], for the one field declared that way. *)
Inductive nullable (A : Type) : Type :=
| Undefined
| Null
| Val (a : A).
Arguments Undefined {A}.
Arguments Null {A}.

(** [!x] on an object that may be null. *)
Definition isNone {A} (o : option A) : bool :=
  match o with None => true | Some _ => false end.

(** [x ?? null]. *)
Definition or_null {A} (x : nullable A) : nullable A :=
  match x with Undefined => Null | _ => x end.

End Js.
Import Js.

(* ================================================================== *)
(** ** The types of [types/poem.ts] *)

Inductive PoemType := individual | full.
Inductive Language := English | French | Arabic | LisanAlDawah | Urdu.
Inductive SubmissionMethod := upload | recording | manual.
Inductive Status := araz_done | araz_pending.

(** The string behind each member of the literal unions. *)
Definition type_str (t : PoemType) : jsstring :=
  match t with
  | individual => lit "individual"
  | full => lit "full"
  end.

Definition language_str (l : Language) : jsstring :=
  match l with
  | English => lit "English"
  | French => lit "French"
  | Arabic => lit "Arabic"
  | LisanAlDawah => lit "Lisan al-Dawah"
  | Urdu => lit "Urdu"
  end.

Definition status_str (s : Status) : jsstring :=
  match s with
  | araz_done => lit "araz_done"
  | araz_pending => lit "araz_pending"
  end.

Record Author := mkAuthor { author_id : jsstring; author_name : jsstring }.

(** [interface Poem]. A JavaScript number is modelled by a rational: the
    ratings of the contest are multiples of one half. *)
Record Poem := mkPoem {
  id : jsstring;
  type : PoemType;
  content : option jsstring;
  language : Language;
  submissionMethod : SubmissionMethod;
  author : Author;
  status : Status;
  approved : bool;
  rating : option Q;
  fileName : option jsstring;
  audioFileName : option jsstring;
  arazContent : option jsstring;
  inspiredBy : option jsstring;
  featured : bool;
  featuredDate : nullable jsstring;
  entryDate : jsstring
}.

(** [interface ApiPoem], the shape of a poem in the back end's answers.
    The pages declare it with small differences (the author key is [id] on
    the admin pages and [userId] on the others); one record serves all. *)
Record ApiPoem := mkApiPoem {
  api_id : jsstring;
  api_type : PoemType;
  api_content : option jsstring;
  api_language : Language;
  api_submissionMethod : SubmissionMethod;
  api_author : Author;
  api_status : Status;
  api_approved : bool;
  api_rating : option Q;
  api_fileName : option jsstring;
  api_audioFileName : option jsstring;
  api_arazContent : option jsstring;
  api_inspiredBy : option jsstring;
  api_featured : bool;
  api_featuredDate : nullable jsstring;
  api_createdAt : jsstring
}.

(** [rating ?? 0]. *)
Definition rating_or_zero (r : option Q) : Q :=
  match r with Some q => q | None => 0 end.

(** The object literal every admin page builds from an [ApiPoem]
    (AdminFeaturedPoemPage 60-77, AdminPoemCheckingPage 79-96,
    AdminReviewPage 987-1004). *)
Definition formatPoem (p : ApiPoem) : Poem :=
  {| id := api_id p;
     type := api_type p;
     content := Some (or_default (api_content p) (lit "Uploaded content"));
     language := api_language p;
     submissionMethod := api_submissionMethod p;
     author := api_author p;
     status := api_status p;
     approved := api_approved p;
     rating := Some (rating_or_zero (api_rating p));
     fileName := or_undefined (api_fileName p);
     audioFileName := or_undefined (api_audioFileName p);
     arazContent := or_undefined (api_arazContent p);
     inspiredBy := or_undefined (api_inspiredBy p);
     featured := api_featured p;
     featuredDate := or_null (api_featuredDate p);
     entryDate := api_createdAt p |}.

(** [poems.find(p => p.id === i)]. *)
Definition findById (i : jsstring) (poems : list Poem) : option Poem :=
  find (fun p => streq (id p) i) poems.

(* ================================================================== *)
(** ** Calls to the back end *)

(** A file picked in a form: only its presence matters to the handlers. *)
Record File := mkFile { file_name : jsstring }.

(** The query parameters of [GET /api/poems]. *)
Record PoemQuery := mkPoemQuery {
  q_status : option jsstring;
  q_type : option jsstring;
  q_language : option jsstring;
  q_approved : option bool;
  q_authorId : option jsstring;
  q_sortBy : option jsstring;
  q_order : option jsstring;
  q_page : option Z;
  q_perPage : option Z
}.

(** The body of a verse as the catalogue endpoints take and return it. *)
Record ApiVerse := mkApiVerse {
  v_id : jsstring;
  v_content : jsstring;
  v_author : option jsstring;
  v_language : Language;
  v_day : Z;
  v_createdAt : option jsstring
}.

Inductive Request :=
| GetPoems (q : PoemQuery)
| PatchFeature (poemId : jsstring) (value : bool)
| PutRate (poemId : jsstring) (value : Q)
| PutStatus (poemId : jsstring) (value : Status)
| PostAraz (poemId : jsstring) (araz_content : option jsstring)
           (araz_file : option File)
| PostPoemManual (t : option PoemType) (text : jsstring) (l : Language)
                 (inspired : jsstring)
| PostPoemUpload (t : option PoemType) (l : Language) (m : SubmissionMethod)
                 (inspired : jsstring) (f : File)
| PatchVerse (verseId : jsstring) (text author : jsstring) (l : Language)
             (day : Z)
| PostVerse (text author : jsstring) (l : Language) (day : Z).

(** What an awaited axios call comes back with: a rejected promise, or
    the data of the answer: none ([Done], [response.data] is null), a page
    of poems, or a verse. *)
Inductive Response :=
| Rejected
| Done
| PoemList (poems : list ApiPoem)
| VerseData (v : ApiVerse).

(** A handler: it ends with the next page state, or awaits one call and
    goes on from the answer. *)
Inductive Prog (S : Type) : Type :=
| Ret (s : S)
| Http (rq : Request) (k : Response -> Prog S).
Arguments Ret {S} s.
Arguments Http {S} rq k.

(** Running a handler against a back end that owns a world [W]. *)
Fixpoint run {S W : Type} (serve : Request -> W -> Response * W)
    (p : Prog S) (w : W) : S * W :=
  match p with
  | Ret s => (s, w)
  | Http rq k => let '(r, w') := serve rq w in run serve (k r) w'
  end.

(** A back end that answers from a script, one answer per call, and
    rejects every call once the script is used up.  Quantifying over the
    script quantifies over every behaviour of the back end. *)
Definition scripted (_ : Request) (w : list Response) : Response * list Response :=
  match w with
  | r :: w' => (r, w')
  | [] => (Rejected, [])
  end.

Definition play {S : Type} (p : Prog S) (script : list Response) : S :=
  fst (run scripted p script).

(** [{ ...poem, featured: f, featuredDate: d }]. *)
Definition set_featuring (f : bool) (d : nullable jsstring) (p : Poem) : Poem :=
  {| id := id p; type := type p; content := content p;
     language := language p; submissionMethod := submissionMethod p;
     author := author p; status := status p; approved := approved p;
     rating := rating p; fileName := fileName p;
     audioFileName := audioFileName p; arazContent := arazContent p;
     inspiredBy := inspiredBy p; featured := f; featuredDate := d;
     entryDate := entryDate p |}.

(** [{ ...poem, status: st }]. *)
Definition set_status (st : Status) (p : Poem) : Poem :=
  {| id := id p; type := type p; content := content p;
     language := language p; submissionMethod := submissionMethod p;
     author := author p; status := st; approved := approved p;
     rating := rating p; fileName := fileName p;
     audioFileName := audioFileName p; arazContent := arazContent p;
     inspiredBy := inspiredBy p; featured := featured p;
     featuredDate := featuredDate p; entryDate := entryDate p |}.

(** [{ ...poem, arazContent: c, status: st }]. *)
Definition set_araz (c : option jsstring) (st : Status) (p : Poem) : Poem :=
  {| id := id p; type := type p; content := content p;
     language := language p; submissionMethod := submissionMethod p;
     author := author p; status := st; approved := approved p;
     rating := rating p; fileName := fileName p;
     audioFileName := audioFileName p; arazContent := c;
     inspiredBy := inspiredBy p; featured := featured p;
     featuredDate := featuredDate p; entryDate := entryDate p |}.

(** Two poems that agree on every field but [status]. *)
Definition sameButStatus (p p' : Poem) : Prop :=
  id p' = id p /\ type p' = type p /\ content p' = content p /\
  language p' = language p /\ submissionMethod p' = submissionMethod p /\
  author p' = author p /\ approved p' = approved p /\
  rating p' = rating p /\ fileName p' = fileName p /\
  audioFileName p' = audioFileName p /\ arazContent p' = arazContent p /\
  inspiredBy p' = inspiredBy p /\ featured p' = featured p /\
  featuredDate p' = featuredDate p /\ entryDate p' = entryDate p.

(** The number of poems of a list that carry the feature. *)
Definition featuredCount (l : list Poem) : nat :=
  List.length (filter featured l).

(** The ids of a list of poems are pairwise different. *)
Definition uniqueIds (l : list Poem) : Prop := NoDup (map id l).

(* ================================================================== *)
(** ** AdminFeaturedPoemPage.tsx *)

Module FeaturedPage.

(** The cells the handlers read and write; [now] stands for the clock
    reading [new Date().toISOString()] of the call. *)
Record State := mkState {
  poems : list Poem;
  featuredPoem : option Poem;
  loading : bool;
  error : option jsstring
}.

Definition initial : State :=
  {| poems := []; featuredPoem := None; loading := false; error := None |}.

Definition failed (msg : string) (s : State) : State :=
  {| poems := poems s; featuredPoem := featuredPoem s;
     loading := false; error := Some (lit msg) |}.

Definition approvedByRating : PoemQuery :=
  {| q_status := None; q_type := None; q_language := None;
     q_approved := Some true; q_authorId := None;
     q_sortBy := Some (lit "rating"); q_order := Some (lit "desc");
     q_page := None; q_perPage := None |}.

(** Lines 52-87. *)
Definition fetchPoems (token : option jsstring) (s : State) : Prog State :=
  if negb (truthy_opt token) then Ret s
  else
    Http (GetPoems approvedByRating) (fun r =>
      match r with
      | PoemList apiPoems =>
          let formattedPoems := map formatPoem apiPoems in
          Ret {| poems := formattedPoems;
                 featuredPoem := find featured formattedPoems;
                 loading := false; error := error s |}
      | _ => Ret (failed "Failed to load approved poems." s)
      end).

(** The callback of [poems.map] in [handleFeaturePoem]. *)
Definition mark (now poemId : jsstring) (poem : Poem) : Poem :=
  set_featuring (if streq (id poem) poemId then true else false)
                (if streq (id poem) poemId then Val now else Null)
                poem.

(** Lines 108-129. *)
Definition handleFeaturePoem (now poemId : jsstring) (s : State) : Prog State :=
  Http (PatchFeature poemId true) (fun r =>
    match r with
    | Rejected => Ret (failed "Failed to feature Nazm." s)
    | _ =>
        let updatedPoems := map (mark now poemId) (poems s) in
        Ret {| poems := updatedPoems;
               featuredPoem := findById poemId updatedPoems;
               loading := false; error := error s |}
    end).

(** Lines 131-151. *)
Definition handleUnfeaturePoem (s : State) : Prog State :=
  match featuredPoem s with
  | None => Ret s
  | Some fp =>
      Http (PatchFeature (id fp) false) (fun r =>
        match r with
        | Rejected => Ret (failed "Failed to unfeature Nazm." s)
        | _ =>
            Ret {| poems := map (set_featuring false Null) (poems s);
                   featuredPoem := None;
                   loading := false; error := error s |}
        end)
  end.

(** What an administrator can do on the page. *)
Inductive Op :=
| Feature (now poemId : jsstring)
| Unfeature.

Inductive Event :=
| Fetch (token : option jsstring)
| Act (op : Op).

Definition perform (op : Op) (s : State) : Prog State :=
  match op with
  | Feature now poemId => handleFeaturePoem now poemId s
  | Unfeature => handleUnfeaturePoem s
  end.

Definition handle (e : Event) (s : State) : Prog State :=
  match e with
  | Fetch token => fetchPoems token s
  | Act op => perform op s
  end.

(** A sequence of events, each run to its end against the back end. *)
Fixpoint exec {W : Type} (serve : Request -> W -> Response * W)
    (evs : list Event) (s : State) (w : W) : State * W :=
  match evs with
  | [] => (s, w)
  | e :: evs' =>
      let '(s', w') := run serve (handle e s) w in exec serve evs' s' w'
  end.

(** The states the page can be in: from the first render, after any
    events, against any back end. *)
Definition reachable (s : State) : Prop :=
  exists evs script, s = fst (exec scripted evs initial script).

(** The invariant of the page list: ids are unique and at most one poem
    carries the feature. *)
Definition singleFeature (s : State) : Prop :=
  uniqueIds (poems s) /\ featuredCount (poems s) <= 1.

(** The [featuredPoem] cell is empty only when no poem of the list is
    featured. *)
Definition coherent (s : State) : Prop :=
  featuredPoem s = None -> featuredCount (poems s) = 0.

End FeaturedPage.

(* ================================================================== *)
(** ** AdminReviewPage.tsx (in ShowcasePage.tsx, from line 916) *)

Module ReviewPage.

(** The three values of the status select. *)
Inductive StatusChoice := pending | approvedOnly | all.

Record State := mkState {
  poems : list Poem;
  filteredPoems : list Poem;
  selectedPoemId : option jsstring;
  statusFilter : StatusChoice;
  typeFilter : jsstring;
  languageFilter : jsstring;
  showRatingModal : bool;
  currentRating : Q;
  hoverRating : Q;
  loading : bool;
  error : option jsstring
}.

(** [setError(msg)]. *)
Definition setError (msg : string) (s : State) : State :=
  {| poems := poems s; filteredPoems := filteredPoems s;
     selectedPoemId := selectedPoemId s; statusFilter := statusFilter s;
     typeFilter := typeFilter s; languageFilter := languageFilter s;
     showRatingModal := showRatingModal s;
     currentRating := currentRating s; hoverRating := hoverRating s;
     loading := loading s; error := Some (lit msg) |}.

(** [x !== 'all' ? x : undefined]. *)
Definition unlessAll (x : jsstring) : option jsstring :=
  if streq x (lit "all") then None else Some x.

(** The [params] object of every [GET /api/poems] of the page. *)
Definition params (s : State) : PoemQuery :=
  {| q_status :=
       match statusFilter s with
       | pending => Some (lit "araz_pending")
       | approvedOnly => Some (lit "araz_done")
       | all => None
       end;
     q_type := unlessAll (typeFilter s);
     q_language := unlessAll (languageFilter s);
     q_approved := None; q_authorId := None; q_sortBy := None;
     q_order := None; q_page := None; q_perPage := None |}.

(** [poem?.rating || 0]: an absent or zero rating gives the literal 0. *)
Definition or_zero (r : option Q) : Q :=
  match r with
  | Some q => if Qeq_bool q 0 then 0 else q
  | None => 0
  end.

(** Lines 1223-1233. *)
Definition openRatingModal (poemId : jsstring) (s : State) : State :=
  match findById poemId (poems s) with
  | Some poem =>
      if negb (approved poem) then setError "Cannot rate an unapproved poem." s
      else
        {| poems := poems s; filteredPoems := filteredPoems s;
           selectedPoemId := Some poemId; statusFilter := statusFilter s;
           typeFilter := typeFilter s; languageFilter := languageFilter s;
           showRatingModal := true;
           currentRating := or_zero (rating poem); hoverRating := 0;
           loading := loading s; error := error s |}
  | None => setError "Cannot rate an unapproved poem." s
  end.

(** Lines 1163-1165. *)
Definition handleStarClick (r : Q) (s : State) : State :=
  {| poems := poems s; filteredPoems := filteredPoems s;
     selectedPoemId := selectedPoemId s; statusFilter := statusFilter s;
     typeFilter := typeFilter s; languageFilter := languageFilter s;
     showRatingModal := showRatingModal s;
     currentRating := r; hoverRating := hoverRating s;
     loading := loading s; error := error s |}.

(** The values the ten click targets of [renderInteractiveStarRating]
    pass to [handleStarClick]: [i - 0.5] and [i] for [i] from 1 to 5. *)
Definition starValues : list Q :=
  flat_map (fun i : Z => [Qmake (2 * i - 1) 2; Qmake i 1]) [1; 2; 3; 4; 5]%Z.

(** Lines 1114-1161. *)
Definition handleRatePoem (token : option jsstring) (s : State) : Prog State :=
  match selectedPoemId s with
  | Some poemId =>
      if negb (truthy poemId) || Qeq_bool (currentRating s) 0
         || negb (truthy_opt token)
      then Ret s
      else
        Http (PutRate poemId (currentRating s)) (fun r =>
          match r with
          | Rejected => Ret (setError "Failed to rate poem. Please try again." s)
          | _ =>
              Http (GetPoems (params s)) (fun r' =>
                match r' with
                | PoemList apiPoems =>
                    let formattedPoems := map formatPoem apiPoems in
                    Ret {| poems := formattedPoems;
                           filteredPoems := formattedPoems;
                           selectedPoemId := None;
                           statusFilter := statusFilter s;
                           typeFilter := typeFilter s;
                           languageFilter := languageFilter s;
                           showRatingModal := false;
                           currentRating := 0; hoverRating := 0;
                           loading := loading s; error := error s |}
                | _ => Ret (setError "Failed to rate poem. Please try again." s)
                end)
          end)
  | None => Ret s
  end.

(** Rating a poem through the page: the star button of the card, a click
    on a star value, then Save. *)
Definition ratePoem (token : option jsstring) (poemId : jsstring) (v : Q)
    (s : State) : Prog State :=
  let s1 := openRatingModal poemId s in
  if showRatingModal s1 then handleRatePoem token (handleStarClick v s1)
  else Ret s1.

End ReviewPage.

(* ================================================================== *)
(** ** The back end behind the review calls *)

Module Backend.

(** Modelled from the spec: the error taxonomy of the engine (section 7);
    the server code that raises these is not among the sources. *)
Inductive Error :=
| ValidationError (field : string)
| NotFound
| PermissionDenied
| Conflict
| TransportError.

(** Modelled from the spec: the role the identity collaborator resolves
    (section 6). *)
Inductive Role := user | admin.

(** Modelled from the spec: the values a rating may take, 0.5 to 5.0 in
    steps of one half (section 4.3). *)
Definition validRating (v : Q) : bool :=
  existsb (fun k : Z => Qeq_bool v (Qmake k 2))
          [1; 2; 3; 4; 5; 6; 7; 8; 9; 10]%Z.

(** [{ ...entry, rating: v }] on the stored entry. *)
Definition set_rating (v : Q) (p : ApiPoem) : ApiPoem :=
  {| api_id := api_id p; api_type := api_type p;
     api_content := api_content p; api_language := api_language p;
     api_submissionMethod := api_submissionMethod p;
     api_author := api_author p; api_status := api_status p;
     api_approved := api_approved p; api_rating := Some v;
     api_fileName := api_fileName p;
     api_audioFileName := api_audioFileName p;
     api_arazContent := api_arazContent p;
     api_inspiredBy := api_inspiredBy p; api_featured := api_featured p;
     api_featuredDate := api_featuredDate p;
     api_createdAt := api_createdAt p |}.

(** Modelled from the spec: [rate(entryId, value)], the handler of
    [PUT /api/poems/:id/rate], which is not among the sources.  The role
    is checked first (section 7), then the entry must exist, then it must
    be approved (Conflict otherwise), then the value must be a valid
    rating; only then is the rating overwritten. *)
Definition rate (role : Role) (entryId : jsstring) (value : Q)
    (repo : list ApiPoem) : Error + list ApiPoem :=
  match role with
  | user => inl PermissionDenied
  | admin =>
      match find (fun e => streq (api_id e) entryId) repo with
      | None => inl NotFound
      | Some e =>
          if negb (api_approved e) then inl Conflict
          else if negb (validRating value) then inl (ValidationError "value")
          else inr (map (fun x => if streq (api_id x) entryId
                                  then set_rating value x else x) repo)
      end
  end.

End Backend.

(* ================================================================== *)
(** ** SubmitPoemPage.tsx (in ShowcasePage.tsx, lines 391-915) *)

Module SubmitPage.

(** The [errors] object: one optional message per form field. *)
Record FormErrors := mkFormErrors {
  err_content : option jsstring;
  err_file : option jsstring;
  err_audio : option jsstring;
  err_verse : option jsstring
}.

Definition noErrors : FormErrors :=
  {| err_content := None; err_file := None;
     err_audio := None; err_verse := None |}.

Record State := mkState {
  poemType : option PoemType;
  language : Language;
  inspiredByVerse : jsstring;
  submissionMethod : option SubmissionMethod;
  content : jsstring;
  selectedFile : option File;
  audioFile : option File;
  submitSuccess : bool;
  loading : bool;
  error : option jsstring;
  errors : FormErrors
}.

Definition isMethod (m : SubmissionMethod) (s : State) : bool :=
  match submissionMethod s, m with
  | Some upload, upload | Some recording, recording
  | Some manual, manual => true
  | _, _ => false
  end.

(** The [newErrors] object of [validateForm], lines 481-504. *)
Definition newErrors (s : State) : FormErrors :=
  {| err_verse :=
       if negb (truthy (inspiredByVerse s))
       then Some (lit "Please select a Matla for your Nazm") else None;
     err_content :=
       if isMethod manual s && negb (truthy (trim (content s)))
       then Some (lit "Nazm content is required")
       else if isMethod manual s
               && (List.length (trim (content s)) <? 20)%nat
       then Some (lit "Nazm is too short (minimum 20 characters)")
       else None;
     err_file :=
       if isMethod upload s && isNone (selectedFile s)
       then Some (lit "Please select a file to upload") else None;
     err_audio :=
       if isMethod recording s && isNone (audioFile s)
       then Some (lit "Please select an audio file to upload") else None |}.

(** [Object.keys(newErrors).length === 0]. *)
Definition noKeys (e : FormErrors) : bool :=
  isNone (err_content e) && isNone (err_file e)
  && isNone (err_audio e) && isNone (err_verse e).

(** Lines 480-508: the errors it stores and the boolean it returns. *)
Definition validateForm (s : State) : State * bool :=
  ({| poemType := poemType s; language := language s;
      inspiredByVerse := inspiredByVerse s;
      submissionMethod := submissionMethod s; content := content s;
      selectedFile := selectedFile s; audioFile := audioFile s;
      submitSuccess := submitSuccess s; loading := loading s;
      error := error s; errors := newErrors s |},
   noKeys (newErrors s)).

Definition finish (ok : bool) (s : State) : State :=
  {| poemType := poemType s; language := language s;
     inspiredByVerse := inspiredByVerse s;
     submissionMethod := submissionMethod s; content := content s;
     selectedFile := selectedFile s; audioFile := audioFile s;
     submitSuccess := if ok then true else submitSuccess s;
     loading := false;
     error := if ok then None
              else Some (lit "Failed to submit Nazm. Please try again.");
     errors := errors s |}.

Definition refuse (s : State) : State :=
  {| poemType := poemType s; language := language s;
     inspiredByVerse := inspiredByVerse s;
     submissionMethod := submissionMethod s; content := content s;
     selectedFile := selectedFile s; audioFile := audioFile s;
     submitSuccess := submitSuccess s; loading := loading s;
     error := Some (lit "Please log in and complete the form");
     errors := errors s |}.

Definition answered (s : State) (r : Response) : Prog State :=
  match r with
  | Rejected => Ret (finish false s)
  | _ => Ret (finish true s)
  end.

(** Lines 510-576. *)
Definition handleSubmit (token : option jsstring) (s : State) : Prog State :=
  let '(s1, valid) := validateForm s in
  if negb valid || negb (truthy_opt token) then Ret (refuse s1)
  else
    match submissionMethod s1, selectedFile s1, audioFile s1 with
    | Some manual, _, _ =>
        Http (PostPoemManual (poemType s1) (content s1) (language s1)
                             (inspiredByVerse s1)) (answered s1)
    | Some upload, Some f, _ =>
        Http (PostPoemUpload (poemType s1) (language s1) upload
                             (inspiredByVerse s1) f) (answered s1)
    | Some recording, _, Some f =>
        Http (PostPoemUpload (poemType s1) (language s1) recording
                             (inspiredByVerse s1) f) (answered s1)
    | _, _, _ => Ret (finish true s1)
    end.

End SubmitPage.

(* ================================================================== *)
(** ** AdminPoemCheckingPage.tsx *)

Module CheckingPage.

Record State := mkState {
  poems : list Poem;
  selectedPoemId : option jsstring;
  statusFilter : jsstring;
  typeFilter : jsstring;
  languageFilter : jsstring;
  showArazUploadModal : bool;
  arazText : jsstring;          (* the [arazContent] cell of the page *)
  selectedFile : option File;
  loading : bool;
  error : option jsstring
}.

(** Lines 109-125: the list the filter effect hands to
    [setFilteredPoems]. *)
Definition filteredPoems (s : State) : list Poem :=
  let filtered := poems s in
  let filtered :=
    if negb (streq (statusFilter s) (lit "all"))
    then filter (fun poem => streq (status_str (status poem)) (statusFilter s))
                filtered
    else filtered in
  let filtered :=
    if negb (streq (typeFilter s) (lit "all"))
    then filter (fun poem => streq (type_str (type poem)) (typeFilter s))
                filtered
    else filtered in
  let filtered :=
    if negb (streq (languageFilter s) (lit "all"))
    then filter (fun poem =>
                   streq (language_str (language poem)) (languageFilter s))
                filtered
    else filtered in
  filtered.

(** The end of a handler: [setError] in the catch, if it was entered, and
    [setLoading(false)] in the finally. *)
Definition settle (err : option string) (s : State) : State :=
  {| poems := poems s; selectedPoemId := selectedPoemId s;
     statusFilter := statusFilter s; typeFilter := typeFilter s;
     languageFilter := languageFilter s;
     showArazUploadModal := showArazUploadModal s;
     arazText := arazText s; selectedFile := selectedFile s;
     loading := false;
     error := match err with Some msg => Some (lit msg) | None => error s end |}.

Definition setPoems (l : list Poem) (s : State) : State :=
  {| poems := l; selectedPoemId := selectedPoemId s;
     statusFilter := statusFilter s; typeFilter := typeFilter s;
     languageFilter := languageFilter s;
     showArazUploadModal := showArazUploadModal s;
     arazText := arazText s; selectedFile := selectedFile s;
     loading := loading s; error := error s |}.

(** Lines 209-228. *)
Definition handleStatusUpdate (poemId : jsstring) (newStatus : Status)
    (s : State) : Prog State :=
  Http (PutStatus poemId newStatus) (fun r =>
    match r with
    | Rejected => Ret (settle (Some "Failed to update status."%string) s)
    | _ =>
        Ret (settle None
               (setPoems
                  (map (fun poem =>
                          if streq (id poem) poemId
                          then set_status newStatus poem else poem)
                       (poems s)) s))
    end).

(** The administrator's toggle back to pending. *)
Definition markPending (poemId : jsstring) (s : State) : Prog State :=
  handleStatusUpdate poemId araz_pending s.

(** The cells [handleArazUpload] resets once the call has succeeded. *)
Definition closeModal (l : list Poem) (s : State) : State :=
  {| poems := l; selectedPoemId := None;
     statusFilter := statusFilter s; typeFilter := typeFilter s;
     languageFilter := languageFilter s;
     showArazUploadModal := false;
     arazText := []; selectedFile := None;
     loading := false; error := error s |}.

(** Lines 230-280. *)
Definition handleArazUpload (token : option jsstring) (s : State) : Prog State :=
  match selectedPoemId s with
  | None => Ret s
  | Some poemId =>
      if negb (truthy poemId)
         || (negb (truthy (trim (arazText s))) && isNone (selectedFile s))
         || negb (truthy_opt token)
      then Ret s
      else
        match findById poemId (poems s) with
        | Some poem =>
            if negb (approved poem)
            then Ret (settle
                   (Some "Cannot upload araz version. Nazm must be approved first."%string) s)
            else
              Http (PostAraz poemId
                      (if truthy (trim (arazText s))
                       then Some (arazText s) else None)
                      (selectedFile s))
                (fun r =>
                   match r with
                   | Rejected =>
                       Ret (settle (Some "Failed to upload araz version."%string) s)
                   | _ =>
                       Ret (closeModal
                              (map (fun poem =>
                                      if streq (id poem) poemId
                                      then set_araz (Some (arazText s))
                                                    araz_done poem
                                      else poem)
                                   (poems s)) s)
                   end)
        | None =>
            Ret (settle
                   (Some "Cannot upload araz version. Nazm must be approved first."%string) s)
        end
  end.

End CheckingPage.

(* ================================================================== *)
(** ** ViewPoemsPage.tsx *)

Module ViewPoemsPage.

Section Search.

(** [String.prototype.toLowerCase]. *)
Variable toLowerCase : jsstring -> jsstring.

(** The predicate of [poems.filter] in the search effect, lines 119-123;
    [query] is the lower-cased search text. *)
Definition matches (query : jsstring) (poem : Poem) : bool :=
  match content poem with
  | Some c => if truthy c then includes (toLowerCase c) query else false
  | None => false
  end
  || includes (toLowerCase (language_str (language poem))) query.

(** Lines 112-125: the list the search effect hands to
    [setFilteredPoems]. *)
Definition filteredPoems (searchQuery : jsstring) (poems : list Poem) : list Poem :=
  if negb (truthy searchQuery) then poems
  else
    let query := toLowerCase searchQuery in
    filter (matches query) poems.

End Search.

End ViewPoemsPage.

(* ================================================================== *)
(** ** AdminOpeningVersesPage.tsx *)

Module VersesPage.

(** [interface OpeningVerse] of [types/verse.ts]. *)
Record OpeningVerse := mkOpeningVerse {
  verse_id : jsstring;
  text : jsstring;
  attribution : jsstring;       (* the [author] key: the Lehen label *)
  verse_language : Language;
  day : Z;
  createdAt : option jsstring
}.

(** The [formData] cell.  Its [day] is always an integer: the input
    stores [parseInt(value) || 1]. *)
Record FormData := mkFormData {
  form_text : jsstring;
  form_author : jsstring;
  form_language : Language;
  form_day : Z
}.

Record State := mkState {
  verses : list OpeningVerse;
  showAddForm : bool;
  editingId : option jsstring;
  formData : FormData;
  loading : bool;
  error : option jsstring
}.

Definition setError (msg : string) (s : State) : State :=
  {| verses := verses s; showAddForm := showAddForm s;
     editingId := editingId s; formData := formData s;
     loading := loading s; error := Some (lit msg) |}.

(** The catch and the finally of [handleSubmit]. *)
Definition saveFailed (s : State) : State :=
  {| verses := verses s; showAddForm := showAddForm s;
     editingId := editingId s; formData := formData s;
     loading := false; error := Some (lit "Failed to save verse.") |}.

(** [setVerses(l)], [resetForm()] (lines 89-99) and the finally. *)
Definition saved (l : list OpeningVerse) (s : State) : State :=
  {| verses := l; showAddForm := false; editingId := None;
     formData := {| form_text := []; form_author := [];
                    form_language := English; form_day := 1 |};
     loading := false; error := None |}.

(** The verse the handler builds from [response.data]. *)
Definition fromResponse (verseId : jsstring) (d : ApiVerse) : OpeningVerse :=
  {| verse_id := verseId;
     text := v_content d;
     attribution := or_default (v_author d) [];
     verse_language := v_language d;
     day := v_day d;
     createdAt := v_createdAt d |}.

(** Lines 101-158.  The catch is reached by a rejected call, and by an
    answer without data when the handler reads a field of it: a creation
    always does, an update does so in the callback of [verses.map], that
    is when a verse carries the edited id; with no such verse the update
    sets the same verses and resets the form.  A page of poems is no answer
    of the verse endpoints: the reads of its fields give undefined, for
    which the typed record [OpeningVerse] has no place, so that answer is
    outside the model; it is taken like an answer without data here and
    nothing below speaks about it. *)
Definition handleSubmit (s : State) : Prog State :=
  let f := formData s in
  if negb (truthy (trim (form_text f))) || negb (truthy (trim (form_author f)))
  then Ret (setError "Text and Lehen are required." s)
  else if (form_day f <? 1)%Z || (form_day f >? 10)%Z
  then Ret (setError "Day must be between 1 and 10." s)
  else
    match editingId s with
    | Some (c :: i) =>
        let editing := c :: i in
        Http (PatchVerse editing (form_text f) (form_author f)
                         (form_language f) (form_day f))
          (fun r =>
             match r with
             | VerseData d =>
                 Ret (saved
                        (map (fun verse =>
                                if streq (verse_id verse) editing
                                then fromResponse (verse_id verse) d
                                else verse)
                             (verses s)) s)
             | Rejected => Ret (saveFailed s)
             | _ =>
                 if existsb (fun verse => streq (verse_id verse) editing)
                            (verses s)
                 then Ret (saveFailed s)
                 else Ret (saved (verses s) s)
             end)
    | _ =>
        Http (PostVerse (form_text f) (form_author f)
                        (form_language f) (form_day f))
          (fun r =>
             match r with
             | VerseData d =>
                 Ret (saved (verses s ++ [fromResponse (v_id d) d]) s)
             | _ => Ret (saveFailed s)
             end)
    end.

End VersesPage.

(* ================================================================== *)
(** ** BestPoemPage.tsx (in LeaderboardPage.tsx, from line 188) *)

Module BestPoemPage.

(** The predicate of [apiPoems.filter], line 247:
    [poem.rating !== null && poem.rating >= 0]. *)
Definition hasRating (poem : ApiPoem) : bool :=
  match api_rating poem with
  | Some r => Qle_bool 0 r
  | None => false
  end.

(** The object literal of lines 248-264; it sets no [featuredDate]. *)
Definition formatPoem (apiPoem : ApiPoem) : Poem :=
  {| id := api_id apiPoem;
     type := api_type apiPoem;
     content := Some (or_default (api_content apiPoem) (lit "Uploaded content"));
     language := api_language apiPoem;
     submissionMethod := api_submissionMethod apiPoem;
     author := api_author apiPoem;
     status := api_status apiPoem;
     approved := api_approved apiPoem;
     rating := Some (rating_or_zero (api_rating apiPoem));
     fileName := or_undefined (api_fileName apiPoem);
     audioFileName := or_undefined (api_audioFileName apiPoem);
     arazContent := or_undefined (api_arazContent apiPoem);
     inspiredBy := or_undefined (api_inspiredBy apiPoem);
     featured := api_featured apiPoem;
     featuredDate := Undefined;
     entryDate := api_createdAt apiPoem |}.

(** [Array.prototype.sort] with the comparator
    [(a, b) => (b.rating ?? 0) - (a.rating ?? 0)]: the stable sort by
    falling rating, written as an insertion sort. *)
Fixpoint insertByRating (x : Poem) (l : list Poem) : list Poem :=
  match l with
  | [] => [x]
  | y :: l' =>
      if Qle_bool (rating_or_zero (rating y)) (rating_or_zero (rating x))
      then x :: l
      else y :: insertByRating x l'
  end.

Fixpoint sortByRating (l : list Poem) : list Poem :=
  match l with
  | [] => []
  | x :: l' => insertByRating x (sortByRating l')
  end.

(** Lines 246-266: the value handed to [setPoems]. *)
Definition formattedPoems (apiPoems : list ApiPoem) : list Poem :=
  firstn 3 (sortByRating (map formatPoem (filter hasRating apiPoems))).

End BestPoemPage.

(** The poems an admin page shows for an answer of the back end
    ([apiPoems.map(...)] on the review, checking and featured pages). *)
Definition adminView (apiPoems : list ApiPoem) : list Poem :=
  map formatPoem apiPoems.


(* ================================================================== *)
(** ** The predicates of the list query (section 4.3) *)

Module ListSpec.

Section Contains.

(** [String.prototype.toLowerCase], by which two texts are compared
    without regard to case. *)
Variable toLowerCase : jsstring -> jsstring.

(** The free-text filter as the specification words it: the entry has a
    content, and it contains the query, case-insensitively. *)
Definition contentContains (q : jsstring) (e : Poem) : bool :=
  match content e with
  | Some c => truthy c && includes (toLowerCase c) (toLowerCase q)
  | None => false
  end.


End Contains.

(** A select of the pages: the value ['all'] stands for an absent filter
    and matches everything, any other value must be the field's. *)
Definition chosen (choice field : jsstring) : bool :=
  streq choice (lit "all") || streq field choice.


End ListSpec.

(* ================================================================== *)
(** ** Sample data, for the examples *)

Module Sample.

Definition poet : Author :=
  {| author_id := lit "u1"; author_name := lit "Burhanuddin" |}.

Definition apiPoem (i : string) (ok : bool) (r : option Q) (f : bool) : ApiPoem :=
  {| api_id := lit i; api_type := individual;
     api_content := Some (lit "The morning light breaks through");
     api_language := English; api_submissionMethod := manual;
     api_author := poet; api_status := araz_pending;
     api_approved := ok; api_rating := r;
     api_fileName := None; api_audioFileName := None;
     api_arazContent := None; api_inspiredBy := Some (lit "v1");
     api_featured := f; api_featuredDate := Null;
     api_createdAt := lit "2025-04-01T08:30:00Z" |}.

Definition poem (i : string) (ok : bool) (r : option Q) (f : bool) : Poem :=
  formatPoem (apiPoem i ok r f).

Definition noon : jsstring := lit "2025-04-03T12:00:00.000Z".
Definition dusk : jsstring := lit "2025-04-03T18:00:00.000Z".

(** The featured page with poems [a] (featured) and [b], both approved. *)
Definition twoPoems : FeaturedPage.State :=
  {| FeaturedPage.poems :=
       [poem "a" true (Some 4%Q) true; poem "b" true (Some 3%Q) false];
     FeaturedPage.featuredPoem := Some (poem "a" true (Some 4%Q) true);
     FeaturedPage.loading := false; FeaturedPage.error := None |}.

(** The review page showing an approved poem [a] and a poem [u] still
    waiting for approval, and the entries the back end stores for them. *)
Definition stored : list ApiPoem :=
  [apiPoem "a" true (Some 4%Q) false; apiPoem "u" false None false].

Definition reviewing : ReviewPage.State :=
  {| ReviewPage.poems := adminView stored;
     ReviewPage.filteredPoems := adminView stored;
     ReviewPage.selectedPoemId := None;
     ReviewPage.statusFilter := ReviewPage.all;
     ReviewPage.typeFilter := lit "all";
     ReviewPage.languageFilter := lit "all";
     ReviewPage.showRatingModal := false;
     ReviewPage.currentRating := 0%Q;
     ReviewPage.hoverRating := 0%Q;
     ReviewPage.loading := false;
     ReviewPage.error := None |}.

Definition token : option jsstring := Some (lit "eyJhbGciOi").

(** The submission form filled in by hand, with a verse chosen. *)
Definition manualForm (text : string) : SubmitPage.State :=
  {| SubmitPage.poemType := Some individual;
     SubmitPage.language := English;
     SubmitPage.inspiredByVerse := lit "v1";
     SubmitPage.submissionMethod := Some manual;
     SubmitPage.content := lit text;
     SubmitPage.selectedFile := None;
     SubmitPage.audioFile := None;
     SubmitPage.submitSuccess := false;
     SubmitPage.loading := false;
     SubmitPage.error := None;
     SubmitPage.errors := SubmitPage.noErrors |}.

(** A poem in English whose text does not hold the word "english". *)
Definition rose : Poem := poem "r" true (Some 4%Q) false.

(** The verse form, editing the one verse of the catalogue. *)
Definition verseForm (t a : string) (d : Z) : VersesPage.State :=
  {| VersesPage.verses :=
       [{| VersesPage.verse_id := lit "v1";
           VersesPage.text := lit "Ya Husain";
           VersesPage.attribution := lit "Lehen 1";
           VersesPage.verse_language := Arabic;
           VersesPage.day := 1%Z;
           VersesPage.createdAt := None |}];
     VersesPage.showAddForm := true;
     VersesPage.editingId := Some (lit "v1");
     VersesPage.formData :=
       {| VersesPage.form_text := lit t; VersesPage.form_author := lit a;
          VersesPage.form_language := Arabic; VersesPage.form_day := d |};
     VersesPage.loading := false;
     VersesPage.error := None |}.

(** The checking page with the correction dialog open on poem [i], the
    corrected text typed in. *)
Definition correcting (i : string) : CheckingPage.State :=
  {| CheckingPage.poems := adminView stored;
     CheckingPage.selectedPoemId := Some (lit i);
     CheckingPage.statusFilter := lit "all";
     CheckingPage.typeFilter := lit "all";
     CheckingPage.languageFilter := lit "all";
     CheckingPage.showArazUploadModal := true;
     CheckingPage.arazText := lit "The morning light breaks through the clouds";
     CheckingPage.selectedFile := None;
     CheckingPage.loading := false;
     CheckingPage.error := None |}.

End Sample.

From Stdlib Require Import Qround Sorted.

(* ================================================================== *)
(** ** The categories of BestPoemPage.tsx and the stars of the cards *)

Module BestCategories.

(** [poem.language === l], on the members of the literal union. *)
Definition inLanguage (l : Language) (poem : Poem) : bool :=
  streq (language_str (language poem)) (language_str l).

(** Lines 281-284: [[...poems].sort(byRating).slice(0, 3)]. *)
Definition highestRated (poems : list Poem) : list Poem :=
  firstn 3 (BestPoemPage.sortByRating poems).

(** One entry of the array of lines 287-308:
    [[...poems].filter(inLanguage).sort(byRating)[0] || null]. *)
Definition bestIn (l : Language) (poems : list Poem) : option Poem :=
  hd_error (BestPoemPage.sortByRating (filter (inLanguage l) poems)).

(** [.filter(Boolean)] on an array of poems and nulls. *)
Fixpoint present (l : list (option Poem)) : list Poem :=
  match l with
  | [] => []
  | Some p :: l' => p :: present l'
  | None :: l' => present l'
  end.

(** Lines 285-309: the best poem of each language, in the order English,
    French, Arabic, Lisan al-Dawah, Urdu. *)
Definition byLanguage (poems : list Poem) : list Poem :=
  present [bestIn English poems; bestIn French poems; bestIn Arabic poems;
           bestIn LisanAlDawah poems; bestIn Urdu poems].

End BestCategories.

Module PoemCard.

(** [Math.round(x)]: the nearest integer, halves going up. *)
Definition round (x : Q) : Z := Qfloor (x + (1 # 2))%Q.

(** The text beside the stars: the rating to one decimal, or the words
    "Not rated". *)
Inductive Label :=
| NotRated
| Fixed1 (r : Q).

(** [renderStars] of PoemCard.tsx: which of the five stars are filled, and
    the label. *)
Definition renderStars (rating : option Q) : list bool * Label :=
  let displayRating := match rating with Some r => r | None => 0%Q end in
  (map (fun star => (star <=? round displayRating)%Z) [1; 2; 3; 4; 5]%Z,
   match rating with
   | Some r => if negb (Qle_bool r 0) then Fixed1 r else NotRated
   | None => NotRated
   end).

(** The number of filled stars. *)
Definition filled (stars : list bool) : nat :=
  List.length (filter (fun b => b) stars).

End PoemCard.

(* ================================================================== *)
(** ** PoemDetails.tsx (in AppLayout.tsx, from line 238) *)

Module PoemDetails.

Inductive ViewMode := original | araz.

(** The template literal [`${prefix}${name}`]. *)
Definition labelled (prefix : string) (name : jsstring) : jsstring :=
  lit prefix ++ name.

(** The returns of [getDisplayContent] after its first test. *)
Definition originalContent (poem : Poem) : jsstring :=
  match submissionMethod poem, content poem, fileName poem,
        audioFileName poem with
  | manual, Some c, _, _ =>
      if truthy c then c else lit "No content available"
  | upload, _, Some f, _ =>
      if truthy f then labelled "Uploaded file: " f
      else lit "No content available"
  | recording, _, _, Some f =>
      if truthy f then labelled "Audio recording: " f
      else lit "No content available"
  | _, _, _, _ => lit "No content available"
  end.

(** [getDisplayContent], lines 367-381. *)
Definition getDisplayContent (currentViewMode : ViewMode) (poem : Poem) : jsstring :=
  match currentViewMode, arazContent poem with
  | araz, Some a => if truthy a then a else originalContent poem
  | _, _ => originalContent poem
  end.

End PoemDetails.

(* ================================================================== *)
(** ** The verse catalogue pages: grouping by day, editing *)

Module VerseGroups.
Import VersesPage.

(** [acc[verse.day].push(verse)], creating the array on a new key: the
    object [versesByDay] as the list of its keys and arrays, in the order
    the keys were created. *)
Fixpoint push (d : Z) (verse : OpeningVerse)
    (acc : list (Z * list OpeningVerse)) : list (Z * list OpeningVerse) :=
  match acc with
  | [] => [(d, [verse])]
  | (d', group) :: acc' =>
      if (d =? d')%Z then (d', group ++ [verse]) :: acc'
      else (d', group) :: push d verse acc'
  end.

(** The [reduce] of AdminOpeningVersesPage 77-83 and OpeningVersesPage
    482-488. *)
Definition versesByDay (verses : list OpeningVerse) : list (Z * list OpeningVerse) :=
  fold_left (fun acc verse => push (day verse) verse acc) verses [].

(** [versesByDay[d]]. *)
Fixpoint lookup (d : Z) (acc : list (Z * list OpeningVerse)) : option (list OpeningVerse) :=
  match acc with
  | [] => None
  | (d', group) :: acc' => if (d =? d')%Z then Some group else lookup d acc'
  end.

(** [.sort((a, b) => a - b)] on numbers. *)
Fixpoint insertDay (d : Z) (l : list Z) : list Z :=
  match l with
  | [] => [d]
  | e :: l' => if (d <=? e)%Z then d :: l else e :: insertDay d l'
  end.

Fixpoint sortDays (l : list Z) : list Z :=
  match l with
  | [] => []
  | d :: l' => insertDay d (sortDays l')
  end.

(** [Object.keys(versesByDay).map(Number).sort((a, b) => a - b)].  The
    keys are distinct, so the order in which [Object.keys] lists them does
    not show in the sorted result. *)
Definition sortedDays (verses : list OpeningVerse) : list Z :=
  sortDays (map fst (versesByDay verses)).

(** What the page renders: for each day of [sortedDays], the cards of
    [versesByDay[day]]. *)
Definition sections (verses : list OpeningVerse) : list (Z * list OpeningVerse) :=
  map (fun d => (d, match lookup d (versesByDay verses) with
                    | Some group => group
                    | None => []
                    end))
      (sortedDays verses).

(** The day groups after the verses of [l] have been pushed. *)
Definition grouped (l : list OpeningVerse) (acc : list (Z * list OpeningVerse)) : Prop :=
  NoDup (map fst acc) /\
  (forall d, In d (map fst acc) <-> exists v, In v l /\ day v = d) /\
  (forall d, In d (map fst acc) ->
             lookup d acc = Some (filter (fun v => (day v =? d)%Z) l)).

(** [handleEdit], AdminOpeningVersesPage 160-169. *)
Definition handleEdit (verse : OpeningVerse) (s : State) : State :=
  {| verses := verses s; showAddForm := true;
     editingId := Some (verse_id verse);
     formData := {| form_text := text verse;
                    form_author := or_default (Some (attribution verse)) [];
                    form_language := verse_language verse;
                    form_day := day verse |};
     loading := loading s; error := error s |}.

(** The form data [handleSubmit] lets through. *)
Definition acceptable (f : FormData) : Prop :=
  trim (form_text f) <> [] /\ trim (form_author f) <> [] /\
  (1 <= form_day f <= 10)%Z.

End VerseGroups.

(* ================================================================== *)
(** ** The steps of the submission form (SubmitPoemPage, lines 590-900) *)

Module SubmitWizard.
Import SubmitPage.

Definition initial : State :=
  {| poemType := None; language := English; inspiredByVerse := [];
     submissionMethod := None; content := []; selectedFile := None;
     audioFile := None; submitSuccess := false; loading := false;
     error := None; errors := noErrors |}.

(** [resetForm], lines 590-600. *)
Definition resetForm (s : State) : State :=
  {| poemType := None; language := English; inspiredByVerse := [];
     submissionMethod := None; content := []; selectedFile := None;
     audioFile := None; submitSuccess := submitSuccess s;
     loading := loading s; error := None; errors := noErrors |}.

(** What the visitor can click or type. *)
Inductive Click :=
| ChooseType (t : PoemType)
| ChooseLanguage (l : Language)
| ChooseVerse (verseId : jsstring)
| ChooseMethod (m : SubmissionMethod)
| TypeContent (c : jsstring)
| PickFile (f : option File)
| PickAudio (f : option File)
| StartOver
| SubmitAnother.

Definition isSome {A} (o : option A) : bool := negb (isNone o).

(** The condition under which the JSX renders the control of a click. *)
Definition rendered (c : Click) (s : State) : bool :=
  match c with
  | SubmitAnother => submitSuccess s
  | ChooseType _ => negb (submitSuccess s) && isNone (poemType s)
  | ChooseLanguage _ | ChooseVerse _ =>
      negb (submitSuccess s) && isSome (poemType s)
      && isNone (submissionMethod s)
  | ChooseMethod m =>
      negb (submitSuccess s) && isSome (poemType s)
      && isNone (submissionMethod s) && truthy (inspiredByVerse s)
      && match m, poemType s with
         | recording, Some individual => true
         | recording, _ => false
         | _, _ => true
         end
  | TypeContent _ => negb (submitSuccess s) && isMethod manual s
  | PickFile _ => negb (submitSuccess s) && isMethod upload s
  | PickAudio _ => negb (submitSuccess s) && isMethod recording s
  | StartOver => negb (submitSuccess s) && isSome (submissionMethod s)
  end.

(** The state setters the control calls. *)
Definition apply (c : Click) (s : State) : State :=
  match c with
  | ChooseType t =>
      {| poemType := Some t; language := language s;
         inspiredByVerse := inspiredByVerse s;
         submissionMethod := submissionMethod s; content := content s;
         selectedFile := selectedFile s; audioFile := audioFile s;
         submitSuccess := submitSuccess s; loading := loading s;
         error := error s; errors := errors s |}
  | ChooseLanguage l =>
      {| poemType := poemType s; language := l; inspiredByVerse := [];
         submissionMethod := submissionMethod s; content := content s;
         selectedFile := selectedFile s; audioFile := audioFile s;
         submitSuccess := submitSuccess s; loading := loading s;
         error := error s; errors := errors s |}
  | ChooseVerse v =>
      {| poemType := poemType s; language := language s;
         inspiredByVerse := v;
         submissionMethod := submissionMethod s; content := content s;
         selectedFile := selectedFile s; audioFile := audioFile s;
         submitSuccess := submitSuccess s; loading := loading s;
         error := error s; errors := errors s |}
  | ChooseMethod m =>
      {| poemType := poemType s; language := language s;
         inspiredByVerse := inspiredByVerse s;
         submissionMethod := Some m; content := content s;
         selectedFile := selectedFile s; audioFile := audioFile s;
         submitSuccess := submitSuccess s; loading := loading s;
         error := error s; errors := errors s |}
  | TypeContent c =>
      {| poemType := poemType s; language := language s;
         inspiredByVerse := inspiredByVerse s;
         submissionMethod := submissionMethod s; content := c;
         selectedFile := selectedFile s; audioFile := audioFile s;
         submitSuccess := submitSuccess s; loading := loading s;
         error := error s; errors := errors s |}
  | PickFile f =>
      {| poemType := poemType s; language := language s;
         inspiredByVerse := inspiredByVerse s;
         submissionMethod := submissionMethod s; content := content s;
         selectedFile := match f with Some _ => f | None => selectedFile s end;
         audioFile := audioFile s;
         submitSuccess := submitSuccess s; loading := loading s;
         error := error s; errors := errors s |}
  | PickAudio f =>
      {| poemType := poemType s; language := language s;
         inspiredByVerse := inspiredByVerse s;
         submissionMethod := submissionMethod s; content := content s;
         selectedFile := selectedFile s;
         audioFile := match f with Some _ => f | None => audioFile s end;
         submitSuccess := submitSuccess s; loading := loading s;
         error := error s; errors := errors s |}
  | StartOver => resetForm s
  | SubmitAnother =>
      {| poemType := poemType s; language := language s;
         inspiredByVerse := inspiredByVerse s;
         submissionMethod := submissionMethod s; content := content s;
         selectedFile := selectedFile s; audioFile := audioFile s;
         submitSuccess := false; loading := loading s;
         error := error s; errors := errors s |}
  end.

(** A click does something only on a control that is rendered. *)
Definition click (c : Click) (s : State) : State :=
  if rendered c s then apply c s else s.

Inductive Event :=
| Clicked (c : Click)
| Submitted (token : option jsstring).

Definition handle (e : Event) (s : State) : Prog State :=
  match e with
  | Clicked c => Ret (click c s)
  | Submitted token => handleSubmit token s
  end.

Fixpoint exec (evs : list Event) (s : State) (script : list Response) : State * list Response :=
  match evs with
  | [] => (s, script)
  | e :: evs' =>
      let '(s', script') := run scripted (handle e s) script in
      exec evs' s' script'
  end.

(** The states of the form: from its first render, after any clicks and
    submissions, whatever the back end answers. *)
Definition reachable (s : State) : Prop :=
  exists evs script, s = fst (exec evs initial script).

(** The method and the type of the form agree: a method is chosen only
    after a type and a verse, and a recording only for individual abyat. *)
Definition consistent (s : State) : Prop :=
  (submissionMethod s <> None ->
     poemType s <> None /\ truthy (inspiredByVerse s) = true) /\
  (submissionMethod s = Some recording -> poemType s = Some individual).

End SubmitWizard.

(* ================================================================== *)
(** ** Further calls: approval, rejection, deletion *)

Module Calls.

(** The calls of the handlers below: those of [Request] and three more. *)
Inductive Call :=
| Known (rq : Request)
| PutApprove (poemId : jsstring)
| DeletePoem (poemId : jsstring)
| DeleteVerse (verseId : jsstring).

(** A handler over these calls. *)
Inductive Task (S : Type) : Type :=
| Stop (s : S)
| Await (c : Call) (k : Response -> Task S).
Arguments Stop {S} s.
Arguments Await {S} c k.

Fixpoint runTask {S W : Type} (serve : Call -> W -> Response * W)
    (t : Task S) (w : W) : S * W :=
  match t with
  | Stop s => (s, w)
  | Await c k => let '(r, w') := serve c w in runTask serve (k r) w'
  end.

(** The calls a handler makes, in order, against a back end. *)
Fixpoint calls {S W : Type} (serve : Call -> W -> Response * W)
    (t : Task S) (w : W) : list Call :=
  match t with
  | Stop _ => []
  | Await c k => let '(r, w') := serve c w in c :: calls serve (k r) w'
  end.

(** The scripted back end of [scripted], for these calls. *)
Definition answering (_ : Call) (w : list Response) : Response * list Response :=
  match w with
  | r :: w' => (r, w')
  | [] => (Rejected, [])
  end.

Definition playTask {S : Type} (t : Task S) (script : list Response) : S :=
  fst (runTask answering t script).

End Calls.

Module ReviewActions.
Import ReviewPage Calls.

(** [handleApprove], lines 1023-1067, as the closure of one render: it
    reads [selectedPoemId] and the filters of the render that created it
    ([seen]) and its setters overwrite cells of the state at the time they
    run ([current]). *)
Definition approveFrom (seen current : State) (token : option jsstring) : Task State :=
  match selectedPoemId seen with
  | Some poemId =>
      if negb (truthy poemId) || negb (truthy_opt token) then Stop current
      else
        Await (PutApprove poemId) (fun r =>
          match r with
          | Rejected =>
              Stop (setError "Failed to approve poem. Please try again." current)
          | _ =>
              Await (Known (GetPoems (params seen))) (fun r' =>
                match r' with
                | PoemList apiPoems =>
                    let formattedPoems := map formatPoem apiPoems in
                    Stop {| poems := formattedPoems;
                            filteredPoems := formattedPoems;
                            selectedPoemId := None;
                            statusFilter := statusFilter current;
                            typeFilter := typeFilter current;
                            languageFilter := languageFilter current;
                            showRatingModal := showRatingModal current;
                            currentRating := currentRating current;
                            hoverRating := hoverRating current;
                            loading := loading current;
                            error := error current |}
                | _ =>
                    Stop (setError "Failed to approve poem. Please try again."
                                   current)
                end)
          end)
  | None => Stop current
  end.

(** [handleReject], lines 1069-1112, in the same way. *)
Definition rejectFrom (seen current : State) (token : option jsstring) : Task State :=
  match selectedPoemId seen with
  | Some poemId =>
      if negb (truthy poemId) || negb (truthy_opt token) then Stop current
      else
        Await (DeletePoem poemId) (fun r =>
          match r with
          | Rejected =>
              Stop (setError "Failed to reject poem. Please try again." current)
          | _ =>
              Await (Known (GetPoems (params seen))) (fun r' =>
                match r' with
                | PoemList apiPoems =>
                    let formattedPoems := map formatPoem apiPoems in
                    Stop {| poems := formattedPoems;
                            filteredPoems := formattedPoems;
                            selectedPoemId := None;
                            statusFilter := statusFilter current;
                            typeFilter := typeFilter current;
                            languageFilter := languageFilter current;
                            showRatingModal := showRatingModal current;
                            currentRating := currentRating current;
                            hoverRating := hoverRating current;
                            loading := loading current;
                            error := error current |}
                | _ =>
                    Stop (setError "Failed to reject poem. Please try again."
                                   current)
                end)
          end)
  | None => Stop current
  end.

(** [setSelectedPoemId(x)]. *)
Definition select (x : option jsstring) (s : State) : State :=
  {| poems := poems s; filteredPoems := filteredPoems s;
     selectedPoemId := x; statusFilter := statusFilter s;
     typeFilter := typeFilter s; languageFilter := languageFilter s;
     showRatingModal := showRatingModal s;
     currentRating := currentRating s; hoverRating := hoverRating s;
     loading := loading s; error := error s |}.

(** The Approve and Reject buttons of the details dialog: the handler of
    the current render. *)
Definition handleApprove (token : option jsstring) (s : State) : Task State :=
  approveFrom s s token.

Definition handleReject (token : option jsstring) (s : State) : Task State :=
  rejectFrom s s token.

(** The Approve button of a card, lines 1353-1364:
    [setSelectedPoemId(poem.id); await handleApprove()], where
    [handleApprove] is still the closure of the render that drew the
    button. *)
Definition approveButton (poem : Poem) (token : option jsstring) (s : State) : Task State :=
  approveFrom s (select (Some (id poem)) s) token.

(** The details dialog is drawn for
    [selectedPoem && !showRatingModal]. *)
Definition detailsShown (s : State) : option Poem :=
  match selectedPoemId s with
  | Some i =>
      if truthy i && negb (showRatingModal s) then findById i (poems s)
      else None
  | None => None
  end.

End ReviewActions.

Module VerseActions.
Import VersesPage Calls.

(** [handleDelete], AdminOpeningVersesPage 171-186; [confirmed] is the
    answer to the [confirm] dialog. *)
Definition handleDelete (confirmed : bool) (verseId : jsstring) (s : State) : Task State :=
  if confirmed then
    Await (DeleteVerse verseId) (fun r =>
      match r with
      | Rejected =>
          Stop {| verses := verses s; showAddForm := showAddForm s;
                  editingId := editingId s; formData := formData s;
                  loading := false;
                  error := Some (lit "Failed to delete verse.") |}
      | _ =>
          Stop {| verses := filter (fun verse =>
                                      negb (streq (verse_id verse) verseId))
                                   (verses s);
                  showAddForm := showAddForm s;
                  editingId := editingId s; formData := formData s;
                  loading := false; error := error s |}
      end)
  else Stop s.

End VerseActions.

Module CheckingActions.
Import CheckingPage.

(** The status button of a card, lines 450-457: the other status than
    the poem's. *)
Definition otherStatus (poem : Poem) : Status :=
  match status poem with
  | araz_done => araz_pending
  | araz_pending => araz_done
  end.

Definition toggleStatus (poem : Poem) (s : State) : Prog State :=
  handleStatusUpdate (id poem) (otherStatus poem) s.

End CheckingActions.

(* ================================================================== *)
(** ** Words for the statements about rankings *)

Module Ranking.

(** [rating ?? 0], the key of the comparator. *)
Definition stars (p : Poem) : Q := rating_or_zero (rating p).

(** [a] is rated at least as high as [b]. *)
Definition noLower (a b : Poem) : Prop := (stars b <= stars a)%Q.

(** The poem is rated [r]. *)
Definition tied (r : Q) (p : Poem) : bool := Qeq_bool (stars p) r.

End Ranking.

(* ================================================================== *)
(** * Properties *)

(** ** Strings *)

Lemma streq_refl s : streq s s = true.
Proof.
  induction s as [|c s IH]; simpl; [reflexivity|].
  now rewrite N.eqb_refl, IH.
Qed.

Lemma streq_eq a b : streq a b = true <-> a = b.
Proof.
  split; [|intros ->; apply streq_refl].
  revert b; induction a as [|x a IH]; intros [|y b]; simpl;
    try discriminate; auto.
  rewrite andb_true_iff, N.eqb_eq. intros [-> H]. f_equal. now apply IH.
Qed.

Lemma streq_neq a b : streq a b = false <-> a <> b.
Proof.
  rewrite <- streq_eq. destruct (streq a b); split; congruence.
Qed.

(** ** The featured poem *)

Lemma filter_id_le_1 i l :
  uniqueIds l -> List.length (filter (fun p => streq (id p) i) l) <= 1.
Proof.
  unfold uniqueIds. induction l as [|p l IH]; simpl; intros Hnd; [lia|].
  inversion Hnd as [|? ? Hnotin Hnd']; subst.
  destruct (streq (id p) i) eqn:E; [|auto].
  apply streq_eq in E. simpl.
  assert (Hnil : filter (fun q => streq (id q) i) l = []).
  { destruct (filter (fun q => streq (id q) i) l) as [|q l'] eqn:F; [reflexivity|].
    exfalso. assert (Hq : In q (filter (fun q => streq (id q) i) l))
      by (rewrite F; now left).
    apply filter_In in Hq. destruct Hq as [Hin Hq]. apply streq_eq in Hq.
    apply Hnotin. rewrite E, <- Hq. now apply in_map. }
  rewrite Hnil. simpl. lia.
Qed.

Module FeaturedFacts.
Import FeaturedPage.

Lemma mark_id now i p : id (mark now i p) = id p.
Proof. reflexivity. Qed.

Lemma mark_ids now i l : map id (map (mark now i) l) = map id l.
Proof. rewrite map_map. now apply map_ext. Qed.

Lemma mark_featured now i p : featured (mark now i p) = streq (id p) i.
Proof. unfold mark. simpl. now destruct (streq (id p) i). Qed.

Lemma mark_count now i l :
  featuredCount (map (mark now i) l)
  = List.length (filter (fun p => streq (id p) i) l).
Proof.
  unfold featuredCount. induction l as [|p l IH]; [reflexivity|].
  cbn [map filter]. rewrite mark_featured.
  destruct (streq (id p) i); cbn [List.length]; now rewrite IH.
Qed.

Lemma clear_count l : featuredCount (map (set_featuring false Null) l) = 0.
Proof. unfold featuredCount. induction l; simpl; auto. Qed.

Lemma clear_ids l : map id (map (set_featuring false Null) l) = map id l.
Proof. rewrite map_map. now apply map_ext. Qed.

Lemma perform_keeps W (serve : Request -> W -> Response * W) op s w :
  singleFeature s -> singleFeature (fst (run serve (perform op s) w)).
Proof.
  intros [Hid Hc]. destruct op as [now i|]; simpl.
  - destruct (serve (PatchFeature i true) w) as [r w'].
    destruct r; simpl; split; simpl; auto;
      try (unfold uniqueIds; now rewrite mark_ids);
      rewrite mark_count; now apply filter_id_le_1.
  - unfold handleUnfeaturePoem. destruct (featuredPoem s) as [fp|]; simpl.
    + destruct (serve (PatchFeature (id fp) false) w) as [r w'].
      destruct r; simpl; split; simpl; auto;
        try (unfold uniqueIds; now rewrite clear_ids);
        rewrite clear_count; lia.
    + now split.
Qed.

(** C1. Starting from a page list with unique ids in which at most one
    poem is featured, every sequence of feature and unfeature operations,
    whatever the back end answers to each of them, ends in a list in which
    the number of featured poems is 0 or 1 (and ids are still unique). The
    handlers never look at [approved], so the property needs no assumption
    on the poems that are featured. *)
Theorem at_most_one_featured :
  forall (W : Type) (serve : Request -> W -> Response * W)
         (ops : list Op) (s : State) (w : W),
    uniqueIds (poems s) ->
    featuredCount (poems s) <= 1 ->
    let s' := fst (exec serve (map Act ops) s w) in
    uniqueIds (poems s') /\
    (featuredCount (poems s') = 0 \/ featuredCount (poems s') = 1).
Proof.
  intros W serve ops. induction ops as [|op ops IH]; intros s w Hid Hc; simpl.
  - split; [assumption|lia].
  - pose proof (@perform_keeps W serve op s w (conj Hid Hc)) as [Hid' Hc'].
    destruct (run serve (perform op s) w) as [s1 w1]. simpl in *.
    now apply IH.
Qed.

Lemma at_most_one_featured_witness :
  uniqueIds (poems Sample.twoPoems) /\
  featuredCount (poems Sample.twoPoems) <= 1 /\
  featuredCount
    (poems (fst (exec scripted
                   (map Act [Feature Sample.noon (lit "b"); Unfeature;
                             Feature Sample.dusk (lit "a")])
                   Sample.twoPoems [Done; Rejected; Done]))) = 1.
Proof.
  assert (Hid : uniqueIds (poems Sample.twoPoems)).
  { unfold uniqueIds. vm_compute.
    repeat constructor; simpl; intuition discriminate. }
  assert (Hc : featuredCount (poems Sample.twoPoems) <= 1) by (vm_compute; lia).
  split; [exact Hid|]. split; [exact Hc|].
  destruct (@at_most_one_featured _ scripted
              [Feature Sample.noon (lit "b"); Unfeature;
               Feature Sample.dusk (lit "a")]
              Sample.twoPoems [Done; Rejected; Done] Hid Hc) as [_ [H|H]].
  - vm_compute in H. discriminate H.
  - exact H.
Defined.

Lemma mark_mark na ia nb ib p :
  mark nb ib (mark na ia p) = mark nb ib p.
Proof. reflexivity. Qed.

Lemma play_feature now i s r :
  r <> Rejected ->
  play (handleFeaturePoem now i s) [r]
  = {| poems := map (mark now i) (poems s);
       featuredPoem := findById i (map (mark now i) (poems s));
       loading := false; error := error s |}.
Proof. intros Hr. destruct r; [congruence| | |]; reflexivity. Qed.

Lemma findById_mark now i l p :
  In p l -> id p = i ->
  exists q, findById i (map (mark now i) l) = Some q
            /\ id q = i /\ featured q = true /\ featuredDate q = Val now.
Proof.
  intros Hin Hid. unfold findById.
  destruct (find (fun q => streq (id q) i) (map (mark now i) l)) as [q|] eqn:F.
  - apply find_some in F. destruct F as [Hq E]. apply streq_eq in E.
    apply in_map_iff in Hq. destruct Hq as [q0 [<- _]].
    rewrite mark_id in E. exists (mark now i q0). unfold mark.
    rewrite (proj2 (streq_eq _ _) E). simpl. auto.
  - exfalso.
    pose proof (find_none _ _ F (mark now i p) (in_map _ _ _ Hin)) as Hf.
    cbv beta in Hf. rewrite mark_id, (proj2 (streq_eq _ _) Hid) in Hf.
    discriminate Hf.
Qed.

(** C2. For two poems [a] and [b] of the page list with different ids,
    [handleFeaturePoem] on [a] and then on [b], both calls accepted by the
    back end, leaves [a] not featured (with a null date), [b] featured with
    the time of the second call as its date, every poem with another id
    than [b]'s not featured, and [b] in the [featuredPoem] cell. The
    handler does not look at [approved]. *)
Theorem feature_then_feature :
  forall (s : State) (a b : Poem) (now_a now_b : jsstring) (r1 r2 : Response),
    In a (poems s) -> In b (poems s) -> id a <> id b ->
    r1 <> Rejected -> r2 <> Rejected ->
    let s1 := play (handleFeaturePoem now_a (id a) s) [r1] in
    let s2 := play (handleFeaturePoem now_b (id b) s1) [r2] in
    In (set_featuring false Null a) (poems s2) /\
    In (set_featuring true (Val now_b) b) (poems s2) /\
    (forall p, In p (poems s2) -> id p = id a -> featured p = false) /\
    (forall p, In p (poems s2) -> id p = id b ->
               featured p = true /\ featuredDate p = Val now_b) /\
    (forall p, In p (poems s2) -> id p <> id b ->
               featured p = false /\ featuredDate p = Null) /\
    (exists q, featuredPoem s2 = Some q /\ id q = id b
               /\ featured q = true /\ featuredDate q = Val now_b).
Proof.
  intros s a b now_a now_b r1 r2 Ha Hb Hab Hr1 Hr2 s1 s2.
  assert (E2 : poems s2 = map (mark now_b (id b)) (poems s)).
  { subst s2 s1. rewrite (play_feature _ _ _ Hr2), (play_feature _ _ _ Hr1).
    simpl. rewrite map_map. apply map_ext. intros p. apply mark_mark. }
  assert (Hpoint : forall p, In p (poems s2) ->
            (id p = id b -> featured p = true /\ featuredDate p = Val now_b) /\
            (id p <> id b -> featured p = false /\ featuredDate p = Null)).
  { intros p Hp. rewrite E2 in Hp. apply in_map_iff in Hp.
    destruct Hp as [p0 [<- _]]. rewrite mark_id. unfold mark.
    destruct (streq (id p0) (id b)) eqn:E; simpl.
    - apply streq_eq in E. split; [auto|congruence].
    - apply streq_neq in E. split; [congruence|auto]. }
  repeat split.
  - rewrite E2. apply in_map_iff. exists a. split; [|assumption].
    unfold mark. now rewrite (proj2 (streq_neq _ _) Hab).
  - rewrite E2. apply in_map_iff. exists b. split; [|assumption].
    unfold mark. now rewrite streq_refl.
  - intros p Hp Hpa. apply (Hpoint p Hp). congruence.
  - now apply (Hpoint p H).
  - now apply (Hpoint p H).
  - now apply (Hpoint p H).
  - now apply (Hpoint p H).
  - subst s2. rewrite (play_feature _ _ _ Hr2). simpl.
    subst s1. rewrite (play_feature _ _ _ Hr1). simpl.
    rewrite map_map.
    rewrite (map_ext _ (mark now_b (id b))) by (intros; apply mark_mark).
    now apply findById_mark with (p := b).
Qed.

Lemma feature_then_feature_witness :
  let a := Sample.poem "a" true (Some 4%Q) true in
  let b := Sample.poem "b" true (Some 3%Q) false in
  let s1 := play (handleFeaturePoem Sample.noon (id a) Sample.twoPoems) [Done] in
  let s2 := play (handleFeaturePoem Sample.dusk (id b) s1) [Done] in
  In (set_featuring false Null a) (poems s2) /\
  In (set_featuring true (Val Sample.dusk) b) (poems s2).
Proof.
  intros a b s1 s2.
  assert (Ha : In a (poems Sample.twoPoems)) by (simpl; auto).
  assert (Hb : In b (poems Sample.twoPoems)) by (simpl; auto).
  assert (Hab : id a <> id b) by (vm_compute; discriminate).
  assert (Hr : Done <> Rejected) by discriminate.
  destruct (feature_then_feature Sample.twoPoems a b Sample.noon Sample.dusk
              Ha Hb Hab Hr Hr) as [H1 [H2 _]].
  split; [exact H1|exact H2].
Defined.

Lemma find_featured_none l :
  find featured l = None -> featuredCount l = 0.
Proof.
  unfold featuredCount. induction l as [|p l IH]; simpl; [reflexivity|].
  destruct (featured p); [discriminate|auto].
Qed.

Lemma findById_mark_none now i l :
  findById i (map (mark now i) l) = None ->
  featuredCount (map (mark now i) l) = 0.
Proof.
  unfold findById. rewrite mark_count.
  induction l as [|p l IH]; simpl; [reflexivity|].
  destruct (streq (id p) i); [discriminate|auto].
Qed.

Lemma handle_coherent W (serve : Request -> W -> Response * W) e s w :
  coherent s -> coherent (fst (run serve (handle e s) w)).
Proof.
  intros Hs. destruct e as [token|[now i|]]; simpl.
  - unfold fetchPoems. destruct (negb (truthy_opt token)); [exact Hs|].
    simpl. destruct (serve (GetPoems approvedByRating) w) as [r w'].
    destruct r; simpl; try exact Hs.
    intros Hnone. now apply find_featured_none.
  - destruct (serve (PatchFeature i true) w) as [r w'].
    destruct r; simpl; try exact Hs; intros Hnone;
      now apply findById_mark_none.
  - unfold handleUnfeaturePoem. destruct (featuredPoem s) as [fp|] eqn:F.
    + simpl. destruct (serve (PatchFeature (id fp) false) w) as [r w'].
      destruct r; simpl; unfold coherent; simpl;
        try (rewrite F; discriminate); intros _; apply clear_count.
    + exact Hs.
Qed.

Lemma exec_coherent W (serve : Request -> W -> Response * W) evs :
  forall s w, coherent s -> coherent (fst (exec serve evs s w)).
Proof.
  induction evs as [|e evs IH]; intros s w Hs; simpl; [exact Hs|].
  pose proof (@handle_coherent W serve e s w Hs) as H1.
  destruct (run serve (handle e s) w) as [s1 w1]. now apply IH.
Qed.

Lemma reachable_coherent s : reachable s -> coherent s.
Proof.
  intros [evs [script ->]]. apply exec_coherent. intros _. reflexivity.
Qed.

(** C9. In every state the page can reach, an unfeature call that the
    back end accepts leaves no poem of the list featured and empties the
    [featuredPoem] cell; when the cell held a poem, the handler rewrites
    every poem of the list, whichever one held the feature, with
    [featured = false] and [featuredDate = null]. *)
Theorem unfeature_clears_every_poem :
  forall (s : State) (r : Response),
    reachable s -> r <> Rejected ->
    let s' := play (handleUnfeaturePoem s) [r] in
    featuredCount (poems s') = 0 /\
    (forall p, In p (poems s') -> featured p = false) /\
    featuredPoem s' = None /\
    (featuredPoem s <> None ->
       poems s' = map (set_featuring false Null) (poems s) /\
       (forall p, In p (poems s') ->
                  featured p = false /\ featuredDate p = Null)).
Proof.
  intros s r Hreach Hr s'.
  assert (Hc : featuredCount (poems s') = 0 /\ featuredPoem s' = None).
  { subst s'. unfold handleUnfeaturePoem.
    destruct (featuredPoem s) as [fp|] eqn:F.
    - destruct r; [congruence| | |]; simpl; (split; [apply clear_count|reflexivity]).
    - unfold play. simpl. split; [|exact F].
      now apply (reachable_coherent Hreach). }
  destruct Hc as [Hc Hnone]. split; [exact Hc|]. split; [|split; [exact Hnone|]].
  - intros p Hp. unfold featuredCount in Hc.
    destruct (featured p) eqn:E; [|reflexivity]. exfalso.
    assert (Hin : In p (filter featured (poems s')))
      by (apply filter_In; split; assumption).
    destruct (filter featured (poems s')); [contradiction|discriminate].
  - intros Hsome. subst s'. unfold handleUnfeaturePoem.
    destruct (featuredPoem s) as [fp|]; [|congruence].
    assert (E : poems (play (Http (PatchFeature (id fp) false)
                (fun r0 => match r0 with
                   | Rejected => Ret (failed "Failed to unfeature Nazm." s)
                   | _ => Ret {| poems := map (set_featuring false Null) (poems s);
                                 featuredPoem := None; loading := false;
                                 error := error s |}
                   end)) [r])
              = map (set_featuring false Null) (poems s))
      by (destruct r; [congruence| | |]; reflexivity).
    split; [exact E|]. intros p Hp. rewrite E in Hp.
    apply in_map_iff in Hp. destruct Hp as [p0 [<- _]]. split; reflexivity.
Qed.

Lemma unfeature_clears_every_poem_witness :
  let s := fst (exec scripted
                  [Fetch (Some (lit "token"));
                   Act (Feature Sample.noon (lit "b"))]
                  initial
                  [PoemList [Sample.apiPoem "a" true (Some 4%Q) true;
                             Sample.apiPoem "b" true None false;
                             Sample.apiPoem "c" true (Some 2%Q) false];
                   Done]) in
  featuredPoem s <> None /\
  featuredCount (poems s) = 1 /\
  featuredCount (poems (play (handleUnfeaturePoem s) [Done])) = 0.
Proof.
  intros s.
  assert (Hreach : reachable s) by (subst s; eexists; eexists; reflexivity).
  assert (Hr : Done <> Rejected) by discriminate.
  split; [vm_compute; discriminate|]. split; [vm_compute; reflexivity|].
  exact (proj1 (unfeature_clears_every_poem Hreach Hr)).
Defined.

End FeaturedFacts.

(** ** Rating *)

Module RatingFacts.
Import ReviewPage.

Lemma starValues_nonzero v : In v starValues -> Qeq_bool v 0 = false.
Proof.
  unfold starValues. simpl.
  intros H; repeat (destruct H as [<-|H]; [reflexivity|]); contradiction.
Qed.

Lemma starValues_valid v : In v starValues -> Backend.validRating v = true.
Proof.
  unfold starValues. simpl.
  intros H; repeat (destruct H as [<-|H]; [reflexivity|]); contradiction.
Qed.

Lemma setError_poems msg s : poems (setError msg s) = poems s.
Proof. reflexivity. Qed.

(** The page refuses to open the rating dialog on a poem that is not
    approved, and sends nothing. *)
Lemma ratePoem_unapproved token e v s :
  findById (id e) (poems s) = Some e ->
  showRatingModal s = false ->
  approved e = false ->
  ratePoem token (id e) v s
  = Ret (setError "Cannot rate an unapproved poem." s).
Proof.
  intros Hfind Hclosed Hna. unfold ratePoem, openRatingModal.
  rewrite Hfind, Hna. simpl. now rewrite Hclosed.
Qed.

(** On an approved poem the page sends the chosen value for that poem. *)
Lemma ratePoem_approved token e v s :
  findById (id e) (poems s) = Some e ->
  truthy (id e) = true -> truthy_opt token = true ->
  approved e = true -> In v starValues ->
  exists k, ratePoem token (id e) v s = Http (PutRate (id e) v) k.
Proof.
  intros Hfind Hid Htok Hok Hv. unfold ratePoem, openRatingModal.
  rewrite Hfind, Hok. simpl. unfold handleRatePoem. simpl.
  rewrite Hid, Htok, (starValues_nonzero Hv). simpl. eexists. reflexivity.
Qed.

Lemma find_set_rating i v x repo :
  find (fun y => streq (api_id y) i) repo = Some x ->
  find (fun y => streq (api_id y) i)
       (map (fun y => if streq (api_id y) i then Backend.set_rating v y else y)
            repo)
  = Some (Backend.set_rating v x).
Proof.
  induction repo as [|y repo IH]; simpl; [discriminate|].
  destruct (streq (api_id y) i) eqn:E; simpl.
  - rewrite E. congruence.
  - rewrite E. exact IH.
Qed.

Lemma others_kept i v repo y :
  In y (map (fun y => if streq (api_id y) i then Backend.set_rating v y else y)
            repo) ->
  api_id y <> i -> In y repo.
Proof.
  intros Hin Hne. apply in_map_iff in Hin. destruct Hin as [y0 [E Hin]].
  destruct (streq (api_id y0) i) eqn:S.
  - apply streq_eq in S. subst y. simpl in Hne. congruence.
  - now subst y.
Qed.

(** C3. Let [e] be the poem the review page shows under its id and [x] the
    entry the back end stores under the same id.  If [e] is not approved,
    rating it through the page with any value ends at once in the error
    state "Cannot rate an unapproved poem." with the poem list as it was and
    no call sent; and the back end's [rate] on an unapproved entry fails
    with Conflict for every value, hence stores nothing.  If the poem is
    approved and the value is one of 0.5, 1.0, ..., 5.0, the page sends
    exactly that value for that poem, and [rate] stores it as the entry's
    rating whatever the rating was before, leaving the other entries as
    they were. *)
Theorem rate_conflict_or_overwrite :
  forall (s : State) (repo : list ApiPoem) (e : Poem) (x : ApiPoem)
         (v : Q) (token : option jsstring),
    findById (id e) (poems s) = Some e ->
    find (fun y => streq (api_id y) (id e)) repo = Some x ->
    showRatingModal s = false ->
    truthy (id e) = true ->
    truthy_opt token = true ->
    (approved e = false ->
       exists s', ratePoem token (id e) v s = Ret s' /\
                  error s' = Some (lit "Cannot rate an unapproved poem.") /\
                  poems s' = poems s) /\
    (api_approved x = false ->
       Backend.rate Backend.admin (id e) v repo = inl Backend.Conflict) /\
    (approved e = true -> api_approved x = true -> In v starValues ->
       (exists k, ratePoem token (id e) v s = Http (PutRate (id e) v) k) /\
       (exists repo',
          Backend.rate Backend.admin (id e) v repo = inr repo' /\
          find (fun y => streq (api_id y) (id e)) repo'
            = Some (Backend.set_rating v x) /\
          api_rating (Backend.set_rating v x) = Some v /\
          (forall y, In y repo' -> api_id y <> id e -> In y repo))).
Proof.
  intros s repo e x v token Hfind Hstored Hclosed Hid Htok.
  split; [|split].
  - intros Hna. exists (setError "Cannot rate an unapproved poem." s).
    split; [now apply ratePoem_unapproved|]. split; reflexivity.
  - intros Hna. unfold Backend.rate. now rewrite Hstored, Hna.
  - intros Hok Hokx Hv. split; [now apply ratePoem_approved|].
    unfold Backend.rate. rewrite Hstored, Hokx, (starValues_valid Hv).
    simpl. eexists. split; [reflexivity|]. split; [|split].
    + now apply find_set_rating.
    + reflexivity.
    + intros y Hy Hne. now apply others_kept with (i := id e) (v := v).
Qed.

Lemma rate_conflict_or_overwrite_witness :
  let a := formatPoem (Sample.apiPoem "a" true (Some 4%Q) false) in
  let u := formatPoem (Sample.apiPoem "u" false None false) in
  (exists s', ratePoem Sample.token (id u) (Qmake 7 2) Sample.reviewing = Ret s'
              /\ error s' = Some (lit "Cannot rate an unapproved poem.")
              /\ poems s' = poems Sample.reviewing) /\
  Backend.rate Backend.admin (id u) (Qmake 7 2) Sample.stored
    = inl Backend.Conflict /\
  (exists k, ratePoem Sample.token (id a) (Qmake 7 2) Sample.reviewing
             = Http (PutRate (id a) (Qmake 7 2)) k).
Proof.
  intros a u.
  assert (Hu : findById (id u) (poems Sample.reviewing) = Some u) by reflexivity.
  assert (Ha : findById (id a) (poems Sample.reviewing) = Some a) by reflexivity.
  destruct (@rate_conflict_or_overwrite Sample.reviewing Sample.stored u
              (Sample.apiPoem "u" false None false) (Qmake 7 2) Sample.token
              Hu eq_refl eq_refl eq_refl eq_refl) as [U1 [U2 _]].
  destruct (@rate_conflict_or_overwrite Sample.reviewing Sample.stored a
              (Sample.apiPoem "a" true (Some 4%Q) false) (Qmake 7 2)
              Sample.token Ha eq_refl eq_refl eq_refl eq_refl) as [_ [_ A3]].
  split; [exact (U1 eq_refl)|]. split; [exact (U2 eq_refl)|].
  refine (proj1 (A3 eq_refl eq_refl _)).
  unfold starValues. simpl. do 6 right. left. reflexivity.
Defined.

End RatingFacts.

(** ** Submission *)

Module SubmitFacts.
Import SubmitPage.

Lemma isMethod_manual s :
  submissionMethod s = Some manual -> isMethod manual s = true.
Proof. unfold isMethod. now intros ->. Qed.

Lemma content_error_short s :
  submissionMethod s = Some manual ->
  List.length (trim (content s)) < 20 ->
  err_content (newErrors s) <> None.
Proof.
  intros Hm Hlen. unfold newErrors. simpl. rewrite (isMethod_manual _ Hm).
  simpl. destruct (truthy (trim (content s))); simpl; [|discriminate].
  apply Nat.ltb_lt in Hlen. rewrite Hlen. discriminate.
Qed.

Lemma content_error_long s :
  submissionMethod s = Some manual ->
  20 <= List.length (trim (content s)) ->
  err_content (newErrors s) = None.
Proof.
  intros Hm Hlen. unfold newErrors. simpl. rewrite (isMethod_manual _ Hm).
  simpl. destruct (trim (content s)) as [|c t] eqn:E; simpl in *; [lia|].
  destruct (Nat.ltb_spec (S (List.length t)) 20); [lia|reflexivity].
Qed.

Lemma other_errors_manual s :
  submissionMethod s = Some manual ->
  err_file (newErrors s) = None /\ err_audio (newErrors s) = None.
Proof. intros Hm. unfold newErrors, isMethod. simpl. now rewrite Hm. Qed.

(** C4. For a manual submission: when the trimmed content has fewer than
    20 code units, [validateForm] stores a message under the [content] key
    and returns false, and [handleSubmit] stops there without calling the
    back end; when it has 20 or more, no message is stored under [content],
    and with a verse chosen and a session token the poem is posted. *)
Theorem manual_content_min_length :
  forall (s : State) (token : option jsstring),
    submissionMethod s = Some manual ->
    (List.length (trim (content s)) < 20 ->
       err_content (errors (fst (validateForm s))) <> None /\
       snd (validateForm s) = false /\
       exists s', handleSubmit token s = Ret s' /\
                  err_content (errors s') <> None /\
                  error s' = Some (lit "Please log in and complete the form")) /\
    (20 <= List.length (trim (content s)) ->
       err_content (errors (fst (validateForm s))) = None /\
       (truthy (inspiredByVerse s) = true -> truthy_opt token = true ->
          snd (validateForm s) = true /\
          exists k, handleSubmit token s
                    = Http (PostPoemManual (poemType s) (content s)
                                           (language s) (inspiredByVerse s)) k)).
Proof.
  intros s token Hm. split.
  - intros Hlen. pose proof (content_error_short s Hm Hlen) as He.
    assert (Hv : noKeys (newErrors s) = false).
    { unfold noKeys. destruct (err_content (newErrors s)); [reflexivity|congruence]. }
    split; [exact He|]. split; [exact Hv|].
    unfold handleSubmit, validateForm. rewrite Hv. simpl.
    eexists. split; [reflexivity|]. split; [exact He|reflexivity].
  - intros Hlen. pose proof (content_error_long s Hm Hlen) as He.
    split; [exact He|]. intros Hverse Htok.
    destruct (other_errors_manual s Hm) as [Hf Ha].
    assert (Hv : noKeys (newErrors s) = true).
    { unfold noKeys. rewrite He, Hf, Ha. unfold newErrors. simpl.
      now rewrite Hverse. }
    split; [exact Hv|].
    unfold handleSubmit, validateForm. rewrite Hv, Htok. simpl.
    rewrite Hm. eexists. reflexivity.
Qed.

(** Nineteen characters between blanks are refused, twenty are posted. *)
Lemma manual_content_min_length_witness :
  (exists s', handleSubmit Sample.token
                (Sample.manualForm "  Rose of the dawn 19  ") = Ret s'
              /\ err_content (errors s') <> None) /\
  (exists k, handleSubmit Sample.token
               (Sample.manualForm "Roses of the dawn 20") = Http
                 (PostPoemManual (Some individual)
                    (lit "Roses of the dawn 20") English (lit "v1")) k).
Proof.
  split.
  - destruct (@manual_content_min_length
                (Sample.manualForm "  Rose of the dawn 19  ") Sample.token
                eq_refl) as [Hshort _].
    destruct Hshort as [_ [_ [s' [E [He _]]]]]; [vm_compute; lia|].
    exists s'. split; assumption.
  - destruct (@manual_content_min_length
                (Sample.manualForm "Roses of the dawn 20") Sample.token
                eq_refl) as [_ Hlong].
    destruct Hlong as [_ Hpost]; [vm_compute; lia|].
    exact (proj2 (Hpost eq_refl eq_refl)).
Defined.

End SubmitFacts.

(** ** Filters and search *)

Module FilterFacts.
Import ListSpec.


Lemma filter_all {A} (f : A -> bool) l :
  (forall x, f x = true) -> filter f l = l.
Proof.
  intros Hf. induction l as [|x l IH]; simpl; [reflexivity|].
  now rewrite Hf, IH.
Qed.

(** One step of the filter effect: an [if] around a [filter]. *)
Lemma step_chosen (choice : jsstring) (field : Poem -> jsstring) l :
  (if negb (streq choice (lit "all"))
   then filter (fun poem => streq (field poem) choice) l else l)
  = filter (fun poem => chosen choice (field poem)) l.
Proof.
  unfold chosen. destruct (streq choice (lit "all")); simpl.
  - symmetry. now apply filter_all.
  - reflexivity.
Qed.


(** For a lower-casing that keeps the empty string empty and no other,
    as the built-in does, an empty content contains no query that is typed:
    [contentContains] is then the plain test on the content. *)
Lemma contentContains_plain (toLowerCase : jsstring -> jsstring) q poem :
  toLowerCase [] = [] -> toLowerCase q <> [] ->
  contentContains toLowerCase q poem
  = match content poem with
    | Some c => includes (toLowerCase c) (toLowerCase q)
    | None => false
    end.
Proof.
  intros H0 Hq. unfold contentContains.
  destruct (content poem) as [[|c t]|]; try reflexivity.
  rewrite H0. simpl. now destruct (toLowerCase q).
Qed.




End FilterFacts.

(** ** The verse catalogue *)

Module VerseFacts.
Import VersesPage.

(** The handler has returned a state that differs from the old one in
    its error cell only. *)
Ltac stopped :=
  eexists; split; [reflexivity|]; split; [reflexivity|];
  split; [reflexivity|].

(** C6. When the day of the form is outside 1..10, or its text or its
    attribution is empty once trimmed, [handleSubmit] ends at once with an
    error message, for a new verse and for an edited one alike: no call
    reaches the back end and the verse list is what it was. *)
Theorem verse_rejected_before_any_call :
  forall (s : State),
    ((form_day (formData s) < 1)%Z \/ (10 < form_day (formData s))%Z \/
     trim (form_text (formData s)) = [] \/
     trim (form_author (formData s)) = []) ->
    exists s',
      handleSubmit s = Ret s' /\
      verses s' = verses s /\
      editingId s' = editingId s /\
      (error s' = Some (lit "Text and Lehen are required.") \/
       error s' = Some (lit "Day must be between 1 and 10.")).
Proof.
  intros s H. unfold handleSubmit. cbv zeta.
  destruct (truthy (trim (form_text (formData s)))) eqn:Et; simpl;
    [|stopped; now left].
  destruct (truthy (trim (form_author (formData s)))) eqn:Ea; simpl;
    [|stopped; now left].
  destruct ((form_day (formData s) <? 1)%Z
            || (form_day (formData s) >? 10)%Z) eqn:Ed;
    [stopped; now right|].
  exfalso. apply orb_false_iff in Ed. destruct Ed as [E1 E2].
  apply Z.ltb_ge in E1. rewrite Z.gtb_ltb in E2. apply Z.ltb_ge in E2.
  destruct H as [H|[H|[H|H]]]; try lia.
  - rewrite H in Et. discriminate.
  - rewrite H in Ea. discriminate.
Qed.

Lemma verse_rejected_before_any_call_witness :
  (exists s', handleSubmit (Sample.verseForm "Ya Ali" "Lehen 2" 11) = Ret s'
              /\ verses s' = verses (Sample.verseForm "Ya Ali" "Lehen 2" 11)) /\
  (exists s', handleSubmit (Sample.verseForm "   " "Lehen 2" 3) = Ret s'
              /\ verses s' = verses (Sample.verseForm "   " "Lehen 2" 3)).
Proof.
  split.
  - destruct (@verse_rejected_before_any_call
                (Sample.verseForm "Ya Ali" "Lehen 2" 11))
      as [s' [E [Hv _]]]; [right; left; simpl; lia|].
    exists s'. split; assumption.
  - destruct (@verse_rejected_before_any_call
                (Sample.verseForm "   " "Lehen 2" 3))
      as [s' [E [Hv _]]]; [right; right; left; vm_compute; reflexivity|].
    exists s'. split; assumption.
Defined.

End VerseFacts.

(** ** The araz pass *)

Module ArazFacts.
Import CheckingPage.

Lemma play_araz token s e r :
  selectedPoemId s = Some (id e) ->
  findById (id e) (poems s) = Some e ->
  truthy (id e) = true -> truthy_opt token = true ->
  (trim (arazText s) <> [] \/ selectedFile s <> None) ->
  approved e = true -> r <> Rejected ->
  (exists k, handleArazUpload token s
             = Http (PostAraz (id e)
                       (if truthy (trim (arazText s))
                        then Some (arazText s) else None)
                       (selectedFile s)) k) /\
  poems (play (handleArazUpload token s) [r])
  = map (fun poem => if streq (id poem) (id e)
                     then set_araz (Some (arazText s)) araz_done poem
                     else poem) (poems s).
Proof.
  intros Hsel Hfind Hid Htok Hpay Hok Hr. unfold handleArazUpload.
  rewrite Hsel, Hid, Htok, Hfind, Hok.
  assert (Hp : negb (truthy (trim (arazText s))) && isNone (selectedFile s)
               = false).
  { destruct Hpay as [H|H].
    - destruct (trim (arazText s)); [congruence|reflexivity].
    - destruct (selectedFile s); [apply andb_false_r|congruence]. }
  rewrite Hp. simpl. split; [eexists; reflexivity|].
  destruct r; [congruence| | |]; reflexivity.
Qed.

(** C7. With the correction dialog open on a poem [e] of the list, a
    session token, and a corrected text or a file supplied:
    if [e] is not approved, [handleArazUpload] stops with the message that
    the Nazm must be approved first, sends nothing, and leaves the poem list
    as it was; if [e] is approved and the back end accepts the upload, the
    poem gets the typed text as its [arazContent] and [araz_done] as its
    status, and the poems with another id are left as they were. *)
Theorem araz_needs_approval :
  forall (s : State) (e : Poem) (token : option jsstring),
    selectedPoemId s = Some (id e) ->
    findById (id e) (poems s) = Some e ->
    truthy (id e) = true ->
    truthy_opt token = true ->
    (trim (arazText s) <> [] \/ selectedFile s <> None) ->
    (approved e = false ->
       exists s',
         handleArazUpload token s = Ret s' /\
         poems s' = poems s /\
         error s' = Some (lit "Cannot upload araz version. Nazm must be approved first.")) /\
    (approved e = true ->
       forall r, r <> Rejected ->
         let s' := play (handleArazUpload token s) [r] in
         (exists k, handleArazUpload token s
                    = Http (PostAraz (id e)
                              (if truthy (trim (arazText s))
                               then Some (arazText s) else None)
                              (selectedFile s)) k) /\
         In (set_araz (Some (arazText s)) araz_done e) (poems s') /\
         (forall p, In p (poems s') -> id p = id e ->
                    arazContent p = Some (arazText s) /\ status p = araz_done) /\
         (forall p, In p (poems s') -> id p <> id e -> In p (poems s))).
Proof.
  intros s e token Hsel Hfind Hid Htok Hpay. split.
  - intros Hna. unfold handleArazUpload.
    rewrite Hsel, Hid, Htok, Hfind, Hna.
    assert (Hp : negb (truthy (trim (arazText s))) && isNone (selectedFile s)
                 = false).
    { destruct Hpay as [H|H].
      - destruct (trim (arazText s)); [congruence|reflexivity].
      - destruct (selectedFile s); [apply andb_false_r|congruence]. }
    rewrite Hp. simpl. eexists. split; [reflexivity|]. split; reflexivity.
  - intros Hok r Hr s'.
    destruct (@play_araz token s e r Hsel Hfind Hid Htok Hpay Hok Hr)
      as [Hreq Hpoems].
    split; [exact Hreq|]. subst s'. rewrite Hpoems. split; [|split].
    + apply in_map_iff. exists e. rewrite streq_refl. split; [reflexivity|].
      apply find_some in Hfind. tauto.
    + intros p Hp Hpe. apply in_map_iff in Hp. destruct Hp as [p0 [E _]].
      destruct (streq (id p0) (id e)) eqn:S; subst p; [split; reflexivity|].
      apply streq_neq in S. congruence.
    + intros p Hp Hpe. apply in_map_iff in Hp. destruct Hp as [p0 [E Hin]].
      destruct (streq (id p0) (id e)) eqn:S; subst p; [|exact Hin].
      apply streq_eq in S. simpl in Hpe. congruence.
Qed.

Lemma araz_needs_approval_witness :
  let a := formatPoem (Sample.apiPoem "a" true (Some 4%Q) false) in
  let u := formatPoem (Sample.apiPoem "u" false None false) in
  (exists s', handleArazUpload Sample.token (Sample.correcting "u") = Ret s'
              /\ poems s' = poems (Sample.correcting "u")) /\
  In (set_araz (Some (arazText (Sample.correcting "a"))) araz_done a)
     (poems (play (handleArazUpload Sample.token (Sample.correcting "a")) [Done])).
Proof.
  intros a u.
  assert (Hpay : forall i, trim (arazText (Sample.correcting i)) <> []
                           \/ selectedFile (Sample.correcting i) <> None)
    by (intros i; left; vm_compute; discriminate).
  destruct (@araz_needs_approval (Sample.correcting "u") u Sample.token
              eq_refl eq_refl eq_refl eq_refl (Hpay _)) as [U _].
  destruct (@araz_needs_approval (Sample.correcting "a") a Sample.token
              eq_refl eq_refl eq_refl eq_refl (Hpay _)) as [_ A].
  split.
  - destruct (U eq_refl) as [s' [E [Hp _]]]. exists s'. split; assumption.
  - assert (Hr : Done <> Rejected) by discriminate.
    exact (proj1 (proj2 (A eq_refl Done Hr))).
Defined.

Lemma sameButStatus_refl p : sameButStatus p p.
Proof. unfold sameButStatus. repeat split. Qed.

Lemma sameButStatus_set st p : sameButStatus p (set_status st p).
Proof. unfold sameButStatus. repeat split. Qed.

Lemma Forall2_map_self {A} (R : A -> A -> Prop) (f : A -> A) l :
  (forall x, R x (f x)) -> Forall2 R l (map f l).
Proof. intros H. induction l; simpl; constructor; auto. Qed.

(** C8. Whatever the back end answers, [markPending] on [poemId] leaves
    every poem of the list with all its fields but [status] as they were,
    [arazContent] among them, and leaves the poems with another id exactly
    as they were; when the call is accepted, the poems with that id have
    status [araz_pending]. *)
Theorem markPending_changes_status_only :
  forall (s : State) (poemId : jsstring) (r : Response),
    let s' := play (markPending poemId s) [r] in
    Forall2 (fun p p' => sameButStatus p p' /\ (id p <> poemId -> p' = p))
            (poems s) (poems s') /\
    (r <> Rejected ->
       forall p', In p' (poems s') -> id p' = poemId ->
                  status p' = araz_pending).
Proof.
  intros s poemId r s'.
  assert (E : poems s' = poems s \/
              (r <> Rejected /\
               poems s' = map (fun poem => if streq (id poem) poemId
                                           then set_status araz_pending poem
                                           else poem) (poems s))).
  { subst s'. destruct r; [left; reflexivity| | |];
      right; (split; [discriminate|reflexivity]). }
  split.
  - destruct E as [->|[_ ->]].
    + rewrite <- (map_id (poems s)) at 2.
      apply Forall2_map_self. intros p. split; [apply sameButStatus_refl|auto].
    + apply Forall2_map_self. intros p.
      destruct (streq (id p) poemId) eqn:S.
      * apply streq_eq in S. split; [apply sameButStatus_set|congruence].
      * split; [apply sameButStatus_refl|auto].
  - intros Hr p' Hp' Hid.
    assert (E2 : poems s'
                 = map (fun poem => if streq (id poem) poemId
                                    then set_status araz_pending poem
                                    else poem) (poems s))
      by (subst s'; destruct r; [congruence| | |]; reflexivity).
    rewrite E2 in Hp'. apply in_map_iff in Hp'. destruct Hp' as [p0 [Hp0 _]].
    destruct (streq (id p0) poemId) eqn:S; subst p'; [reflexivity|].
    apply streq_neq in S. congruence.
Qed.

Lemma markPending_changes_status_only_witness :
  let a := formatPoem (Sample.apiPoem "a" true (Some 4%Q) false) in
  let s := play (handleArazUpload Sample.token (Sample.correcting "a")) [Done] in
  let s' := play (markPending (lit "a") s) [Done] in
  In (set_araz (Some (arazText (Sample.correcting "a"))) araz_done a) (poems s) /\
  (forall p', In p' (poems s') -> id p' = lit "a" -> status p' = araz_pending) /\
  In (set_araz (Some (arazText (Sample.correcting "a"))) araz_pending a)
     (poems s').
Proof.
  intros a s s'.
  destruct (@markPending_changes_status_only s (lit "a") Done) as [_ H].
  assert (Hr : Done <> Rejected) by discriminate.
  split; [left; reflexivity|]. split; [exact (H Hr)|]. left. reflexivity.
Defined.

End ArazFacts.

(** ** Unrated poems on display *)

Module DisplayFacts.

Lemma insertByRating_perm x l :
  Permutation (BestPoemPage.insertByRating x l) (x :: l).
Proof.
  induction l as [|y l IH]; simpl; [apply Permutation_refl|].
  destruct (Qle_bool (rating_or_zero (rating y)) (rating_or_zero (rating x))).
  - apply Permutation_refl.
  - eapply perm_trans; [apply perm_skip, IH|apply perm_swap].
Qed.

Lemma sortByRating_perm l : Permutation (BestPoemPage.sortByRating l) l.
Proof.
  induction l as [|x l IH]; simpl; [apply perm_nil|].
  eapply perm_trans; [apply insertByRating_perm|now apply perm_skip].
Qed.

Lemma hasRating_unrated p :
  api_rating p = None -> BestPoemPage.hasRating p = false.
Proof. unfold BestPoemPage.hasRating. now intros ->. Qed.

Lemma filter_drop {A} (f : A -> bool) l1 x l2 :
  f x = false -> filter f (l1 ++ x :: l2) = filter f (l1 ++ l2).
Proof.
  intros Hx. rewrite !filter_app. simpl. now rewrite Hx.
Qed.

(** C10, as the pages have it. For a poem the back end returns with a null
    rating, the object literals of the admin pages and of the best-poems
    page both carry [rating ?? 0], hence the rating 0; on the admin pages
    the poem shown is the one shown for the same entry rated 0.  The
    best-poems page filters on [rating !== null && rating >= 0] before its
    mapping: a poem with a null rating is dropped from its list, and a poem
    rated 0 passes, and is shown with rating 0 whenever at most three poems
    pass the filter. *)
Theorem unrated_shown_as_zero_except_best_poems :
  forall (p : ApiPoem),
    api_rating p = None ->
    rating (formatPoem p) = Some 0%Q /\
    rating (BestPoemPage.formatPoem p) = Some 0%Q /\
    formatPoem p = formatPoem (Backend.set_rating 0%Q p) /\
    (forall l1 l2,
       adminView (l1 ++ p :: l2)
       = adminView (l1 ++ Backend.set_rating 0%Q p :: l2)) /\
    (forall l1 l2,
       BestPoemPage.formattedPoems (l1 ++ p :: l2)
       = BestPoemPage.formattedPoems (l1 ++ l2)) /\
    (forall l1 l2,
       List.length (filter BestPoemPage.hasRating (l1 ++ l2)) <= 2 ->
       In (BestPoemPage.formatPoem (Backend.set_rating 0%Q p))
          (BestPoemPage.formattedPoems
             (l1 ++ Backend.set_rating 0%Q p :: l2)) /\
       rating (BestPoemPage.formatPoem (Backend.set_rating 0%Q p))
       = Some 0%Q).
Proof.
  intros p Hnull.
  assert (Hsame : formatPoem p = formatPoem (Backend.set_rating 0%Q p)).
  { unfold formatPoem. simpl. now rewrite Hnull. }
  split; [unfold formatPoem; simpl; now rewrite Hnull|].
  split; [unfold BestPoemPage.formatPoem; simpl; now rewrite Hnull|].
  split; [exact Hsame|]. split; [|split].
  - intros l1 l2. unfold adminView. rewrite !map_app. simpl.
    now rewrite Hsame.
  - intros l1 l2. unfold BestPoemPage.formattedPoems.
    now rewrite filter_drop by (now apply hasRating_unrated).
  - intros l1 l2 Hlen. split; [|reflexivity].
    unfold BestPoemPage.formattedPoems.
    set (kept := filter BestPoemPage.hasRating
                   (l1 ++ Backend.set_rating 0%Q p :: l2)).
    assert (Hin : In (Backend.set_rating 0%Q p) kept).
    { apply filter_In. split; [apply in_elt|reflexivity]. }
    assert (Hk : List.length kept <= 3).
    { unfold kept. rewrite filter_app. simpl.
      rewrite filter_app in Hlen. rewrite length_app in *. simpl. lia. }
    rewrite firstn_all2.
    + apply (Permutation_in _ (Permutation_sym (sortByRating_perm _))).
      now apply in_map.
    + rewrite (Permutation_length (sortByRating_perm _)), length_map.
      exact Hk.
Qed.

Lemma unrated_shown_as_zero_except_best_poems_witness :
  let n := Sample.apiPoem "n" true None false in
  rating (formatPoem n) = Some 0%Q /\
  BestPoemPage.formattedPoems [Sample.apiPoem "a" true (Some 4%Q) false; n]
  = BestPoemPage.formattedPoems [Sample.apiPoem "a" true (Some 4%Q) false] /\
  In (BestPoemPage.formatPoem (Backend.set_rating 0%Q n))
     (BestPoemPage.formattedPoems
        [Sample.apiPoem "a" true (Some 4%Q) false; Backend.set_rating 0%Q n]).
Proof.
  intros n.
  destruct (@unrated_shown_as_zero_except_best_poems n eq_refl)
    as [H1 [_ [_ [_ [H4 H5]]]]].
  split; [exact H1|]. split.
  - exact (H4 [Sample.apiPoem "a" true (Some 4%Q) false] []).
  - refine (proj1 (H5 [Sample.apiPoem "a" true (Some 4%Q) false] [] _)).
    vm_compute. lia.
Defined.

(** On the best-poems page an unrated poem and the same poem rated 0 are
    told apart: the first is not shown at all, the second is shown with
    rating 0. *)
Lemma best_poems_tell_unrated_from_zero :
  let n := Sample.apiPoem "n" true None false in
  BestPoemPage.formattedPoems [n] = [] /\
  BestPoemPage.formattedPoems [Backend.set_rating 0%Q n]
  = [BestPoemPage.formatPoem (Backend.set_rating 0%Q n)] /\
  BestPoemPage.formattedPoems [n]
  <> BestPoemPage.formattedPoems [Backend.set_rating 0%Q n].
Proof.
  intros n. split; [reflexivity|]. split; [reflexivity|].
  vm_compute. discriminate.
Qed.

End DisplayFacts.

(* ================================================================== *)
(** * Further properties *)

(** ** The featured page *)

Module FeaturedMore.
Import FeaturedPage.

Lemma find_featured_some l p :
  find featured l = Some p -> In p l /\ featured p = true.
Proof. intros H. now apply find_some in H. Qed.

Lemma handle_banner W (serve : Request -> W -> Response * W) e s w :
  (forall p, featuredPoem s = Some p -> In p (poems s) /\ featured p = true) ->
  forall p, featuredPoem (fst (run serve (handle e s) w)) = Some p ->
            In p (poems (fst (run serve (handle e s) w))) /\ featured p = true.
Proof.
  intros Hs. destruct e as [token|[now i|]]; simpl.
  - unfold fetchPoems. destruct (negb (truthy_opt token)); [exact Hs|].
    simpl. destruct (serve (GetPoems approvedByRating) w) as [r w'].
    destruct r; simpl; try exact Hs. intros p. apply find_featured_some.
  - destruct (serve (PatchFeature i true) w) as [r w'].
    destruct r; simpl; try exact Hs; intros p Hp;
      apply find_some in Hp; destruct Hp as [Hin E];
      (split; [exact Hin|]); apply in_map_iff in Hin;
      destruct Hin as [p0 [<- _]]; rewrite FeaturedFacts.mark_id in E;
      now rewrite FeaturedFacts.mark_featured.
  - unfold handleUnfeaturePoem. destruct (featuredPoem s) as [fp|] eqn:F.
    + simpl. destruct (serve (PatchFeature (id fp) false) w) as [r w'].
      destruct r; simpl; try discriminate.
      intros p Hp. apply Hs. now rewrite <- Hp.
    + simpl. now rewrite F.
Qed.

(** X1. In every state the featured page can reach, the poem in the
    [featuredPoem] cell, the one the banner shows, is a poem of the list
    and is featured there. *)
Theorem banner_shows_a_featured_poem :
  forall (s : State) (p : Poem),
    reachable s -> featuredPoem s = Some p ->
    In p (poems s) /\ featured p = true.
Proof.
  intros s p [evs [script ->]]. revert p.
  assert (H : forall evs s0 w,
            (forall p, featuredPoem s0 = Some p ->
                       In p (poems s0) /\ featured p = true) ->
            forall p, featuredPoem (fst (exec scripted evs s0 w)) = Some p ->
                      In p (poems (fst (exec scripted evs s0 w)))
                      /\ featured p = true).
  { clear. induction evs as [|e evs IH]; intros s0 w H0; simpl; [exact H0|].
    pose proof (@handle_banner _ scripted e s0 w H0) as H1.
    destruct (run scripted (handle e s0) w) as [s1 w1]. now apply IH. }
  apply H. simpl. discriminate.
Qed.

Lemma banner_shows_a_featured_poem_witness :
  let s := fst (exec scripted
                  [Fetch (Some (lit "token"));
                   Act (Feature Sample.noon (lit "b"))]
                  initial
                  [PoemList [Sample.apiPoem "a" true (Some 4%Q) true;
                             Sample.apiPoem "b" true None false];
                   Done]) in
  exists p, featuredPoem s = Some p /\ id p = lit "b" /\
            In p (poems s) /\ featured p = true.
Proof.
  intros s.
  assert (Hreach : reachable s) by (subst s; eexists; eexists; reflexivity).
  eexists. split; [reflexivity|]. split; [reflexivity|].
  exact (banner_shows_a_featured_poem Hreach eq_refl).
Defined.

(** X2. Featuring an id that no poem of the list carries, the call being
    accepted, takes the feature from every poem and empties the banner. *)
Theorem feature_unknown_id_clears_all :
  forall (s : State) (now i : jsstring) (r : Response),
    (forall p, In p (poems s) -> id p <> i) ->
    r <> Rejected ->
    let s' := play (handleFeaturePoem now i s) [r] in
    poems s' = map (set_featuring false Null) (poems s) /\
    featuredPoem s' = None /\
    featuredCount (poems s') = 0.
Proof.
  intros s now i r Hno Hr s'.
  assert (E : map (mark now i) (poems s)
              = map (set_featuring false Null) (poems s)).
  { apply map_ext_in. intros p Hp. unfold mark.
    now rewrite (proj2 (streq_neq _ _) (Hno p Hp)). }
  subst s'. rewrite (FeaturedFacts.play_feature _ _ _ Hr). simpl.
  rewrite E. split; [reflexivity|]. split; [|apply FeaturedFacts.clear_count].
  unfold findById. destruct (find _ _) as [q|] eqn:F; [|reflexivity].
  apply find_some in F. destruct F as [Hin Hq]. apply streq_eq in Hq.
  apply in_map_iff in Hin. destruct Hin as [q0 [<- Hq0]].
  simpl in Hq. now apply Hno in Hq0.
Qed.

Lemma feature_unknown_id_clears_all_witness :
  featuredCount (poems Sample.twoPoems) = 1 /\
  featuredCount
    (poems (play (handleFeaturePoem Sample.noon (lit "zz") Sample.twoPoems)
                 [Done])) = 0.
Proof.
  split; [reflexivity|].
  refine (proj2 (proj2 (@feature_unknown_id_clears_all Sample.twoPoems
                          Sample.noon (lit "zz") Done _ _))).
  - intros p [<-|[<-|[]]]; vm_compute; discriminate.
  - discriminate.
Defined.

Lemma perform_keeps_but_featuring W (serve : Request -> W -> Response * W)
    op s w now b :
  map (mark now b) (poems (fst (run serve (perform op s) w)))
  = map (mark now b) (poems s).
Proof.
  destruct op as [now' i|]; simpl.
  - destruct (serve (PatchFeature i true) w) as [r w'].
    destruct r; simpl; try reflexivity; rewrite map_map; now apply map_ext.
  - unfold handleUnfeaturePoem. destruct (featuredPoem s) as [fp|];
      [|reflexivity].
    simpl. destruct (serve (PatchFeature (id fp) false) w) as [r w'].
    destruct r; simpl; try reflexivity; rewrite map_map; now apply map_ext.
Qed.

(** X3. An accepted feature call decides the flags and dates of the whole
    list by itself: after any earlier feature and unfeature operations,
    accepted or not, the list is the original one with [featured] true and
    the date of this call on the poems with the chosen id, and [featured]
    false and a null date on all others. *)
Theorem feature_overrides_history :
  forall (ops : list Op) (script : list Response) (s : State)
         (now b : jsstring) (r : Response),
    r <> Rejected ->
    poems (play (handleFeaturePoem now b
                   (fst (exec scripted (map Act ops) s script))) [r])
    = map (mark now b) (poems s).
Proof.
  intros ops script s now b r Hr.
  rewrite (FeaturedFacts.play_feature _ _ _ Hr). simpl.
  revert s script. induction ops as [|op ops IH]; intros s script; simpl;
    [reflexivity|].
  pose proof (@perform_keeps_but_featuring _ scripted op s script now b) as H1.
  destruct (run scripted (perform op s) script) as [s1 w1]. simpl in H1.
  now rewrite IH.
Qed.

Lemma feature_overrides_history_witness :
  poems (play (handleFeaturePoem Sample.dusk (lit "b")
                 (fst (exec scripted
                         (map Act [Feature Sample.noon (lit "a"); Unfeature;
                                   Feature Sample.noon (lit "zz")])
                         Sample.twoPoems [Done; Rejected; Done]))) [Done])
  = map (mark Sample.dusk (lit "b")) (poems Sample.twoPoems).
Proof.
  apply feature_overrides_history. discriminate.
Defined.

(** X4. A feature or unfeature call that the back end rejects changes
    neither the list nor the banner; the page only records an error
    message. *)
Theorem rejected_feature_changes_nothing :
  forall (op : Op) (s : State),
    let s' := play (perform op s) [Rejected] in
    poems s' = poems s /\ featuredPoem s' = featuredPoem s /\
    (s' = s \/ error s' <> None).
Proof.
  intros [now i|] s; simpl.
  - split; [reflexivity|]. split; [reflexivity|]. right. discriminate.
  - unfold handleUnfeaturePoem. destruct (featuredPoem s) as [fp|] eqn:F.
    + unfold play. simpl. rewrite F.
      split; [reflexivity|]. split; [reflexivity|]. right. discriminate.
    + unfold play. simpl. rewrite F. auto.
Qed.

End FeaturedMore.

(** ** The best-poems page *)

Module BestMore.
Import Ranking.

Lemma insertByRating_In x y l :
  In y (BestPoemPage.insertByRating x l) <-> y = x \/ In y l.
Proof.
  split; intros H.
  - apply (Permutation_in _ (DisplayFacts.insertByRating_perm x l)) in H.
    destruct H as [<-|H]; auto.
  - apply (Permutation_in _ (Permutation_sym
                               (DisplayFacts.insertByRating_perm x l))).
    destruct H as [->|H]; [now left|now right].
Qed.

Lemma Qle_bool_false a b : Qle_bool a b = false -> (b <= a)%Q.
Proof.
  intros H. apply Qlt_le_weak, Qnot_le_lt. intros Hle.
  apply Qle_bool_iff in Hle. congruence.
Qed.

Lemma insertByRating_sorted x l :
  StronglySorted noLower l ->
  StronglySorted noLower (BestPoemPage.insertByRating x l).
Proof.
  induction l as [|y l IH]; simpl; intros Hs.
  - constructor; constructor.
  - inversion Hs as [|? ? Hl Hy]; subst.
    destruct (Qle_bool (rating_or_zero (rating y))
                       (rating_or_zero (rating x))) eqn:E.
    + apply Qle_bool_iff in E. constructor; [exact Hs|].
      constructor; [exact E|].
      eapply Forall_impl; [|exact Hy]. intros z Hz. unfold noLower in *.
      eapply Qle_trans; [exact Hz|exact E].
    + constructor; [now apply IH|].
      apply Forall_forall. intros z Hz. apply insertByRating_In in Hz.
      destruct Hz as [->|Hz].
      * now apply Qle_bool_false.
      * rewrite Forall_forall in Hy. now apply Hy.
Qed.

Lemma sortByRating_sorted l :
  StronglySorted noLower (BestPoemPage.sortByRating l).
Proof.
  induction l as [|x l IH]; simpl; [constructor|].
  now apply insertByRating_sorted.
Qed.

Lemma firstn_In {A} n (l : list A) x : In x (firstn n l) -> In x l.
Proof.
  revert l. induction n as [|n IH]; intros [|y l]; simpl; try tauto.
  intros [->|H]; [now left|right; now apply IH].
Qed.

Lemma sorted_firstn n l :
  StronglySorted noLower l -> StronglySorted noLower (firstn n l).
Proof.
  revert l. induction n as [|n IH]; intros [|x l] Hs; simpl; try constructor.
  - inversion Hs; subst. now apply IH.
  - inversion Hs as [|? ? _ Hx]; subst. rewrite Forall_forall in *.
    intros z Hz. apply Hx. now apply firstn_In in Hz.
Qed.

Lemma formattedPoems_sorted apiPoems :
  StronglySorted noLower (BestPoemPage.formattedPoems apiPoems).
Proof. apply sorted_firstn, sortByRating_sorted. Qed.

Lemma sorted_split l1 l2 :
  StronglySorted noLower (l1 ++ l2) ->
  forall a b, In a l1 -> In b l2 -> noLower a b.
Proof.
  induction l1 as [|x l1 IH]; simpl; intros Hs a b Ha Hb; [contradiction|].
  inversion Hs as [|? ? Hs' Hx]; subst. destruct Ha as [->|Ha].
  - rewrite Forall_forall in Hx. apply Hx, in_or_app. now right.
  - now apply IH.
Qed.

Lemma sortByRating_fixed l :
  StronglySorted noLower l -> BestPoemPage.sortByRating l = l.
Proof.
  induction l as [|x l IH]; simpl; intros Hs; [reflexivity|].
  inversion Hs as [|? ? Hl Hx]; subst. rewrite (IH Hl).
  destruct l as [|y l]; simpl; [reflexivity|].
  inversion Hx as [|? ? Hy _]; subst. apply Qle_bool_iff in Hy.
  unfold stars in Hy. now rewrite Hy.
Qed.

(** X5. The list the best-poems page keeps is sorted by falling rating,
    has at most three poems, and exactly three when the answer holds three
    or more rated poems. *)
Theorem best_poems_sorted_at_most_three :
  forall (apiPoems : list ApiPoem),
    StronglySorted noLower (BestPoemPage.formattedPoems apiPoems) /\
    List.length (BestPoemPage.formattedPoems apiPoems)
    = Nat.min 3 (List.length (filter BestPoemPage.hasRating apiPoems)).
Proof.
  intros apiPoems. split; [apply formattedPoems_sorted|].
  unfold BestPoemPage.formattedPoems. rewrite length_firstn.
  now rewrite (Permutation_length (DisplayFacts.sortByRating_perm _)),
    length_map.
Qed.

(** X6. Every poem the best-poems page shows comes from a rated poem of
    the answer, and a rated poem of the answer that is left out is rated no
    higher than any poem shown. *)
Theorem best_poems_are_the_top_three :
  forall (apiPoems : list ApiPoem),
    (forall p, In p (BestPoemPage.formattedPoems apiPoems) ->
       exists x, In x apiPoems /\ BestPoemPage.hasRating x = true
                 /\ p = BestPoemPage.formatPoem x) /\
    (forall x, In x apiPoems -> BestPoemPage.hasRating x = true ->
       In (BestPoemPage.formatPoem x) (BestPoemPage.formattedPoems apiPoems)
       \/ forall p, In p (BestPoemPage.formattedPoems apiPoems) ->
                    noLower p (BestPoemPage.formatPoem x)).
Proof.
  intros apiPoems. unfold BestPoemPage.formattedPoems.
  set (L := BestPoemPage.sortByRating
              (map BestPoemPage.formatPoem
                   (filter BestPoemPage.hasRating apiPoems))).
  assert (HL : forall p, In p L <->
                 In p (map BestPoemPage.formatPoem
                           (filter BestPoemPage.hasRating apiPoems))).
  { intros p. unfold L. split; apply Permutation_in;
      [|apply Permutation_sym]; apply DisplayFacts.sortByRating_perm. }
  split.
  - intros p Hp. apply firstn_In, HL, in_map_iff in Hp.
    destruct Hp as [x [<- Hx]]. apply filter_In in Hx.
    exists x. tauto.
  - intros x Hx Hr.
    assert (Hin : In (BestPoemPage.formatPoem x) L).
    { apply HL, in_map, filter_In. now split. }
    rewrite <- (firstn_skipn 3 L) in Hin. apply in_app_or in Hin.
    destruct Hin as [Hin|Hin]; [now left|right].
    intros p Hp. apply (@sorted_split (firstn 3 L) (skipn 3 L)); auto.
    rewrite firstn_skipn. unfold L. apply sortByRating_sorted.
Qed.

Lemma tied_exclusive r x y :
  Qle_bool (stars y) (stars x) = false ->
  tied r x = true -> tied r y = true -> False.
Proof.
  unfold tied. intros Hlt Hx Hy.
  apply Qeq_bool_iff in Hx. apply Qeq_bool_iff in Hy.
  assert (Hle : (stars y <= stars x)%Q) by (rewrite Hx, Hy; apply Qle_refl).
  apply Qle_bool_iff in Hle. congruence.
Qed.

Lemma insertByRating_ties r x l :
  filter (tied r) (BestPoemPage.insertByRating x l) = filter (tied r) (x :: l).
Proof.
  induction l as [|y l IH]; [reflexivity|].
  cbn [BestPoemPage.insertByRating].
  destruct (Qle_bool (rating_or_zero (rating y))
                     (rating_or_zero (rating x))) eqn:E; [reflexivity|].
  cbn [filter]. rewrite IH. cbn [filter].
  destruct (tied r x) eqn:Tx, (tied r y) eqn:Ty; try reflexivity.
  exfalso. now apply (@tied_exclusive r x y).
Qed.

(** X7. The sort of the best-poems page keeps ties in the order of the
    answer: for every rating, the poems with that rating stand in the
    sorted list in the order in which the back end sent them. *)
Theorem best_poems_ties_in_answer_order :
  forall (apiPoems : list ApiPoem) (r : Q),
    filter (tied r)
           (BestPoemPage.sortByRating
              (map BestPoemPage.formatPoem
                   (filter BestPoemPage.hasRating apiPoems)))
    = filter (tied r)
             (map BestPoemPage.formatPoem
                  (filter BestPoemPage.hasRating apiPoems)).
Proof.
  intros apiPoems r.
  induction (map BestPoemPage.formatPoem
               (filter BestPoemPage.hasRating apiPoems)) as [|x l IH];
    [reflexivity|].
  cbn [BestPoemPage.sortByRating]. rewrite insertByRating_ties.
  cbn [filter]. now rewrite IH.
Qed.

(** X8. The "Highest Rated" category sorts and slices the list again and
    changes nothing: it shows the page list as it is. *)
Theorem highest_rated_is_the_page_list :
  forall (apiPoems : list ApiPoem),
    BestCategories.highestRated (BestPoemPage.formattedPoems apiPoems)
    = BestPoemPage.formattedPoems apiPoems.
Proof.
  intros apiPoems. unfold BestCategories.highestRated.
  rewrite sortByRating_fixed by apply formattedPoems_sorted.
  unfold BestPoemPage.formattedPoems. rewrite firstn_firstn.
  reflexivity.
Qed.

Lemma inLanguage_iff l p :
  BestCategories.inLanguage l p = true <-> language p = l.
Proof.
  unfold BestCategories.inLanguage. rewrite streq_eq.
  split; [|now intros ->].
  destruct (language p), l; intros H; try reflexivity; vm_compute in H;
    discriminate H.
Qed.

Lemma bestIn_spec l poems p :
  BestCategories.bestIn l poems = Some p ->
  In p poems /\ language p = l /\
  forall q, In q poems -> language q = l -> noLower p q.
Proof.
  unfold BestCategories.bestIn. intros H.
  pose proof (sortByRating_sorted
                (filter (BestCategories.inLanguage l) poems)) as Hs.
  assert (Hin : forall q, In q (BestPoemPage.sortByRating
                                  (filter (BestCategories.inLanguage l) poems))
                          <-> In q poems /\ language q = l).
  { intros q. rewrite <- inLanguage_iff, <- filter_In.
    split; apply Permutation_in; [|apply Permutation_sym];
      apply DisplayFacts.sortByRating_perm. }
  destruct (BestPoemPage.sortByRating
              (filter (BestCategories.inLanguage l) poems)) as [|x L];
    [discriminate|].
  simpl in H. injection H as ->.
  destruct (proj1 (Hin p) (or_introl eq_refl)) as [Hp Hl].
  split; [exact Hp|]. split; [exact Hl|]. intros q Hq Hql.
  destruct (proj2 (Hin q) (conj Hq Hql)) as [<-|Hq'].
  - apply Qle_refl.
  - inversion Hs as [|? ? _ Hx]; subst. rewrite Forall_forall in Hx.
    now apply Hx.
Qed.

(** X9. "Best Poems by Language" draws from the page list, that is from
    the overall top three, only: every poem it shows is a poem of that
    list, it is rated at least as high as every poem of its language in
    the list, and no two of the poems it shows share a language. *)
Theorem by_language_picks_from_the_page_list :
  forall (poems : list Poem),
    (forall p, In p (BestCategories.byLanguage poems) ->
       In p poems /\
       forall q, In q poems -> language q = language p -> noLower p q) /\
    NoDup (map language (BestCategories.byLanguage poems)).
Proof.
  intros poems. unfold BestCategories.byLanguage.
  pose proof (@bestIn_spec English poems) as HE.
  pose proof (@bestIn_spec French poems) as HF.
  pose proof (@bestIn_spec Arabic poems) as HA.
  pose proof (@bestIn_spec LisanAlDawah poems) as HL.
  pose proof (@bestIn_spec Urdu poems) as HU.
  destruct (BestCategories.bestIn English poems) as [e|];
  destruct (BestCategories.bestIn French poems) as [f|];
  destruct (BestCategories.bestIn Arabic poems) as [a|];
  destruct (BestCategories.bestIn LisanAlDawah poems) as [l|];
  destruct (BestCategories.bestIn Urdu poems) as [u|];
  try (destruct (HE _ eq_refl) as [He1 [He2 He3]]);
  try (destruct (HF _ eq_refl) as [Hf1 [Hf2 Hf3]]);
  try (destruct (HA _ eq_refl) as [Ha1 [Ha2 Ha3]]);
  try (destruct (HL _ eq_refl) as [Hl1 [Hl2 Hl3]]);
  try (destruct (HU _ eq_refl) as [Hu1 [Hu2 Hu3]]);
  clear HE HF HA HL HU; simpl; split;
  try (intros p Hp;
       repeat (destruct Hp as [<-|Hp];
               [split; [assumption|];
                intros q Hq Hql; first
                  [ apply He3; [assumption|congruence]
                  | apply Hf3; [assumption|congruence]
                  | apply Ha3; [assumption|congruence]
                  | apply Hl3; [assumption|congruence]
                  | apply Hu3; [assumption|congruence] ]|]);
       contradiction);
  repeat (constructor; [simpl; intuition congruence|]); constructor.
Qed.

End BestMore.

(** ** The stars of a card, the text of the details dialog *)

Module CardFacts.
Import PoemCard.

Lemma round_bounds r :
  (0 <= r)%Q -> (r <= 5)%Q -> (0 <= round r <= 5)%Z.
Proof.
  intros H0 H5. unfold round. split.
  - change 0%Z with (Qfloor 0). apply Qfloor_resp_le.
    apply Qle_trans with (0 + (1 # 2))%Q; [discriminate|].
    now apply Qplus_le_l.
  - change 5%Z with (Qfloor (5 + (1 # 2))). apply Qfloor_resp_le.
    now apply Qplus_le_l.
Qed.

(** X10. A card cannot show half a star: for a rating between 0 and 5 it
    fills as many stars as the rating rounded to the nearest integer, halves
    going up (0.5 fills one star, 4.5 fills five).  A poem without rating
    and a poem rated 0 get the same card: no star and "Not rated". *)
Theorem card_rounds_half_stars_up :
  (forall r : Q, (0 <= r)%Q -> (r <= 5)%Q ->
     filled (fst (renderStars (Some r))) = Z.to_nat (round r)) /\
  (forall k : Z, round (inject_Z k + (1 # 2))%Q = (k + 1)%Z) /\
  renderStars None = renderStars (Some 0%Q) /\
  renderStars None = (repeat false 5, NotRated).
Proof.
  split; [|split; [|split; reflexivity]].
  - intros r H0 H5. pose proof (round_bounds H0 H5) as Hb.
    unfold renderStars. cbv zeta. cbn [fst].
    assert (Hz : (round r = 0 \/ round r = 1 \/ round r = 2 \/ round r = 3
                  \/ round r = 4 \/ round r = 5)%Z) by lia.
    destruct Hz as [->|[->|[->|[->|[->| ->]]]]]; reflexivity.
  - intros k. unfold round.
    assert (E : (inject_Z k + (1 # 2) + (1 # 2) == inject_Z (k + 1))%Q).
    { rewrite inject_Z_plus. unfold Qeq, Qplus, inject_Z. simpl. lia. }
    rewrite E. apply Qfloor_Z.
Qed.

Lemma card_rounds_half_stars_up_witness :
  filled (fst (renderStars (Some (7 # 2)%Q))) = 4 /\
  filled (fst (renderStars (Some (1 # 2)%Q))) = 1.
Proof.
  destruct card_rounds_half_stars_up as [H _]. split.
  - rewrite (H (7 # 2)%Q); [reflexivity|discriminate|discriminate].
  - rewrite (H (1 # 2)%Q); [reflexivity|discriminate|discriminate].
Defined.

(** X11. The details dialog always has a text to show: in either view
    mode [getDisplayContent] returns a non-empty string; and in the araz
    view of a poem without araz text it returns what the original view
    returns. *)
Theorem details_never_blank :
  forall (mode : PoemDetails.ViewMode) (poem : Poem),
    PoemDetails.getDisplayContent mode poem <> [] /\
    (truthy_opt (arazContent poem) = false ->
       PoemDetails.getDisplayContent PoemDetails.araz poem
       = PoemDetails.getDisplayContent PoemDetails.original poem).
Proof.
  intros mode poem.
  assert (Ho : PoemDetails.originalContent poem <> []).
  { unfold PoemDetails.originalContent, PoemDetails.labelled.
    destruct (submissionMethod poem);
      destruct (content poem) as [[|c1 t1]|];
      destruct (fileName poem) as [[|c2 t2]|];
      destruct (audioFileName poem) as [[|c3 t3]|]; simpl; discriminate. }
  split.
  - unfold PoemDetails.getDisplayContent.
    destruct mode; [exact Ho|].
    destruct (arazContent poem) as [[|c a]|]; simpl; try exact Ho.
    discriminate.
  - unfold PoemDetails.getDisplayContent.
    destruct (arazContent poem) as [[|c a]|]; simpl; try reflexivity.
    discriminate.
Qed.

Lemma details_never_blank_witness :
  PoemDetails.getDisplayContent PoemDetails.araz Sample.rose
  = lit "The morning light breaks through".
Proof.
  destruct (details_never_blank PoemDetails.araz Sample.rose) as [_ H].
  rewrite (H eq_refl). reflexivity.
Defined.

End CardFacts.

(** ** The search box *)

Module SearchFacts.

Lemma startsWith_spec s p :
  startsWith s p = true <-> exists post, s = p ++ post.
Proof.
  revert s. induction p as [|y p IH]; intros s; simpl.
  - split; [intros _; now exists s|intros _; now destruct s].
  - destruct s as [|x s]; simpl.
    + split; [discriminate|intros [post H]; discriminate].
    + rewrite andb_true_iff, N.eqb_eq, IH. split.
      * intros [-> [post ->]]. now exists post.
      * intros [post H]. injection H as -> ->. split; [reflexivity|].
        now exists post.
Qed.

Lemma includes_startsWith s q :
  startsWith s q = true -> includes s q = true.
Proof. destruct s; cbn [includes]; now intros ->. Qed.

(** [includes] finds a run of code units wherever it stands. *)
Lemma includes_spec s q :
  includes s q = true <-> exists pre post, s = pre ++ q ++ post.
Proof.
  split.
  - induction s as [|c s IH]; cbn [includes]; rewrite orb_true_iff.
    + intros [H|H]; [|discriminate]. apply startsWith_spec in H.
      destruct H as [post ->]. now exists [], post.
    + intros [H|H].
      * apply startsWith_spec in H. destruct H as [post ->].
        now exists [], post.
      * destruct (IH H) as [pre [post ->]]. now exists (c :: pre), post.
  - intros [pre [post ->]]. induction pre as [|c pre IH].
    + apply includes_startsWith, startsWith_spec. now exists post.
    + cbn [app includes]. rewrite IH. apply orb_true_r.
Qed.

Lemma includes_trans s q' q :
  includes s q' = true -> includes q' q = true -> includes s q = true.
Proof.
  rewrite !includes_spec. intros [a [b ->]] [c [d ->]].
  exists (a ++ c), (d ++ b). now rewrite <- !app_assoc.
Qed.



(** X13. Typing more narrows the search: when the lower-cased form of a
    query [q] occurs inside the lower-cased form of a non-empty query [q'],
    every poem found for [q'] is found for [q]. *)
Theorem longer_query_finds_fewer :
  forall (toLowerCase : jsstring -> jsstring)
         (q q' : jsstring) (poems : list Poem) (p : Poem),
    q' <> [] ->
    includes (toLowerCase q') (toLowerCase q) = true ->
    In p (ViewPoemsPage.filteredPoems toLowerCase q' poems) ->
    In p (ViewPoemsPage.filteredPoems toLowerCase q poems).
Proof.
  intros toLowerCase q q' poems p Hq' Hsub.
  unfold ViewPoemsPage.filteredPoems.
  destruct q' as [|c' q']; [congruence|].
  simpl negb. cbv iota zeta. rewrite filter_In. intros [Hin Hm].
  destruct q as [|c q]; [exact Hin|].
  simpl negb. cbv iota. rewrite filter_In.
  split; [exact Hin|]. unfold ViewPoemsPage.matches in *.
  apply orb_true_iff in Hm. apply orb_true_iff. destruct Hm as [Hm|Hm].
  - left. destruct (content p) as [t|]; [|discriminate].
    destruct (truthy t); [|discriminate].
    now apply includes_trans with (q' := toLowerCase (c' :: q')).
  - right. now apply includes_trans with (q' := toLowerCase (c' :: q')).
Qed.

Lemma longer_query_finds_fewer_witness :
  In Sample.rose
     (ViewPoemsPage.filteredPoems lowerBasicLatin (lit "Light")
        [Sample.rose]).
Proof.
  apply (@longer_query_finds_fewer lowerBasicLatin (lit "Light")
           (lit "Morning LIGHT") [Sample.rose] Sample.rose).
  - discriminate.
  - reflexivity.
  - left. reflexivity.
Defined.

End SearchFacts.

(** ** The verse catalogue pages *)

Module VerseMore.
Import VersesPage VerseGroups.

Lemma truthy_true s : truthy s = true <-> s <> [].
Proof. destruct s; simpl; split; congruence. Qed.

Lemma acceptable_guards f :
  acceptable f ->
  negb (truthy (trim (form_text f))) || negb (truthy (trim (form_author f)))
  = false /\
  ((form_day f <? 1) || (form_day f >? 10))%Z = false.
Proof.
  intros [Ht [Ha Hd]]. apply truthy_true in Ht, Ha. rewrite Ht, Ha.
  split; [reflexivity|]. apply orb_false_iff. split.
  - apply Z.ltb_ge. lia.
  - rewrite Z.gtb_ltb. apply Z.ltb_ge. lia.
Qed.

(** X14. [handleSubmit] of the verse form calls the back end exactly when
    the form is acceptable (text and attribution not blank, day from 1 to
    10): it then sends the fields as typed, as a PATCH of the verse being
    edited, or as a POST when no verse is being edited. *)
Theorem verse_form_sends_what_was_typed :
  forall (s : State),
    let f := formData s in
    (acceptable f ->
       (forall c i, editingId s = Some (c :: i) ->
          exists k, handleSubmit s
                    = Http (PatchVerse (c :: i) (form_text f) (form_author f)
                                       (form_language f) (form_day f)) k) /\
       (truthy_opt (editingId s) = false ->
          exists k, handleSubmit s
                    = Http (PostVerse (form_text f) (form_author f)
                                      (form_language f) (form_day f)) k)) /\
    (forall rq k, handleSubmit s = Http rq k -> acceptable f).
Proof.
  intros s f. split.
  - intros Hacc. destruct (acceptable_guards Hacc) as [G1 G2].
    unfold handleSubmit. cbv zeta. fold f. rewrite G1, G2. split.
    + intros c i ->. eexists. reflexivity.
    + intros Hno. destruct (editingId s) as [[|c i]|]; try discriminate;
        eexists; reflexivity.
  - intros rq k. unfold handleSubmit. cbv zeta. fold f.
    destruct (truthy (trim (form_text f))) eqn:Et; simpl; [|discriminate].
    destruct (truthy (trim (form_author f))) eqn:Ea; simpl; [|discriminate].
    destruct ((form_day f <? 1)%Z || (form_day f >? 10)%Z) eqn:Ed;
      [discriminate|].
    intros _. apply orb_false_iff in Ed. destruct Ed as [E1 E2].
    apply Z.ltb_ge in E1. rewrite Z.gtb_ltb in E2. apply Z.ltb_ge in E2.
    apply truthy_true in Et, Ea. repeat split; auto.
Qed.

Lemma verse_form_sends_what_was_typed_witness :
  exists k, handleSubmit (Sample.verseForm "Ya Ali" "Lehen 2" 3)
            = Http (PatchVerse (lit "v1") (lit "Ya Ali") (lit "Lehen 2")
                               Arabic 3) k.
Proof.
  destruct (verse_form_sends_what_was_typed
              (Sample.verseForm "Ya Ali" "Lehen 2" 3)) as [H _].
  assert (Hacc : acceptable (formData (Sample.verseForm "Ya Ali" "Lehen 2" 3))).
  { unfold acceptable. simpl. repeat split; try lia; vm_compute; discriminate. }
  destruct (H Hacc) as [Hpatch _].
  exact (Hpatch _ _ eq_refl).
Defined.



(** X16. Opening a verse for editing and saving it as it is sends the
    verse's own text, attribution, language and day for that verse's id,
    provided the verse would pass the form's checks and has an id. *)
Theorem edit_then_save_sends_the_verse :
  forall (s : State) (verse : OpeningVerse),
    verse_id verse <> [] ->
    trim (text verse) <> [] -> trim (attribution verse) <> [] ->
    (1 <= day verse <= 10)%Z ->
    exists k,
      handleSubmit (handleEdit verse s)
      = Http (PatchVerse (verse_id verse) (text verse) (attribution verse)
                         (verse_language verse) (day verse)) k.
Proof.
  intros s verse Hid Ht Ha Hd. unfold handleSubmit, handleEdit. cbv zeta.
  cbn [formData form_text form_author form_day form_language editingId].
  assert (Eo : or_default (Some (attribution verse)) [] = attribution verse).
  { unfold or_default. now destruct (attribution verse). }
  rewrite Eo. apply truthy_true in Ht, Ha. rewrite Ht, Ha. simpl.
  assert (G : ((day verse <? 1) || (day verse >? 10))%Z = false).
  { apply orb_false_iff. split; [apply Z.ltb_ge; lia|].
    rewrite Z.gtb_ltb. apply Z.ltb_ge. lia. }
  rewrite G. destruct (verse_id verse); [congruence|]. eexists. reflexivity.
Qed.

Lemma edit_then_save_sends_the_verse_witness :
  exists k,
    handleSubmit
      (handleEdit {| verse_id := lit "v1"; text := lit "Ya Husain";
                     attribution := lit "Lehen 1"; verse_language := Arabic;
                     day := 1%Z; createdAt := None |}
                  (Sample.verseForm "" "" 1))
    = Http (PatchVerse (lit "v1") (lit "Ya Husain") (lit "Lehen 1") Arabic 1) k.
Proof.
  apply (@edit_then_save_sends_the_verse (Sample.verseForm "" "" 1)
           {| verse_id := lit "v1"; text := lit "Ya Husain";
              attribution := lit "Lehen 1"; verse_language := Arabic;
              day := 1%Z; createdAt := None |});
    try (vm_compute; discriminate). simpl. lia.
Defined.

(** The verses of day [d], in the order of the list. *)
Lemma lookup_push d d' v acc :
  lookup d (push d' v acc)
  = if (d =? d')%Z
    then Some (match lookup d' acc with Some g => g ++ [v] | None => [v] end)
    else lookup d acc.
Proof.
  induction acc as [|[e g] acc IH]; simpl.
  - destruct (d =? d')%Z; reflexivity.
  - destruct (d' =? e)%Z eqn:E1; simpl.
    + apply Z.eqb_eq in E1. subst e.
      destruct (d =? d')%Z; reflexivity.
    + rewrite IH. destruct (d =? e)%Z eqn:E2; [|reflexivity].
      apply Z.eqb_eq in E2. subst e.
      destruct (d =? d')%Z eqn:E3; [|reflexivity].
      apply Z.eqb_eq in E3. subst d'. rewrite Z.eqb_refl in E1. discriminate.
Qed.

Lemma keys_push d' v acc :
  NoDup (map fst acc) ->
  NoDup (map fst (push d' v acc)) /\
  (forall d, In d (map fst (push d' v acc)) <-> d = d' \/ In d (map fst acc)).
Proof.
  induction acc as [|[e g] acc IH]; simpl; intros Hnd.
  - split; [repeat constructor; auto|]. intros d. intuition.
  - inversion Hnd as [|? ? Hnot Hnd']; subst.
    destruct (d' =? e)%Z eqn:E1; simpl.
    + apply Z.eqb_eq in E1. subst e. split; [exact Hnd|]. intros d. intuition.
    + apply Z.eqb_neq in E1. destruct (IH Hnd') as [IH1 IH2]. split.
      * constructor; [|exact IH1]. rewrite IH2. intros [H|H]; congruence.
      * intros d. rewrite IH2. intuition.
Qed.

Lemma lookup_in d acc : lookup d acc <> None <-> In d (map fst acc).
Proof.
  induction acc as [|[e g] acc IH]; simpl; [tauto|].
  destruct (d =? e)%Z eqn:E.
  - apply Z.eqb_eq in E. subst e. split; [auto|discriminate].
  - apply Z.eqb_neq in E. rewrite IH. split; [auto|intros [H|H]; congruence].
Qed.

Lemma grouped_push l acc v :
  grouped l acc -> grouped (l ++ [v]) (push (day v) v acc).
Proof.
  intros [Hnd [Hkeys Hlook]]. destruct (@keys_push (day v) v acc Hnd) as [K1 K2].
  split; [exact K1|]. split.
  - intros d. rewrite K2, Hkeys. split.
    + intros [->|[w [Hw E]]].
      * exists v. split; [apply in_or_app; right; now left|reflexivity].
      * exists w. split; [apply in_or_app; now left|exact E].
    + intros [w [Hw E]]. apply in_app_or in Hw. destruct Hw as [Hw|[<-|[]]].
      * right. now exists w.
      * now left.
  - intros d Hd. rewrite lookup_push, filter_app. simpl.
    rewrite (Z.eqb_sym (day v) d). destruct (d =? day v)%Z eqn:E.
    + apply Z.eqb_eq in E. subst d.
      destruct (lookup (day v) acc) as [g|] eqn:L.
      * assert (Hin : In (day v) (map fst acc))
          by (apply lookup_in; congruence).
        rewrite (Hlook _ Hin) in L. injection L as <-. reflexivity.
      * assert (Hno : ~ In (day v) (map fst acc))
          by (rewrite <- lookup_in; congruence).
        f_equal. rewrite <- app_nil_l at 1. f_equal. symmetry.
        destruct (filter (fun w => (day w =? day v)%Z) l) as [|w t] eqn:F;
          [reflexivity|]. exfalso. apply Hno, Hkeys.
        assert (Hw : In w (filter (fun w => (day w =? day v)%Z) l))
          by (rewrite F; now left).
        apply filter_In in Hw. destruct Hw as [Hw Ew].
        apply Z.eqb_eq in Ew. now exists w.
    + rewrite app_nil_r. apply Hlook. apply K2 in Hd.
      destruct Hd as [->|Hd]; [|exact Hd]. rewrite Z.eqb_refl in E.
      discriminate.
Qed.

Lemma grouped_fold verses :
  forall l acc, grouped l acc ->
    grouped (l ++ verses)
            (fold_left (fun acc verse => push (day verse) verse acc) verses acc).
Proof.
  induction verses as [|v verses IH]; intros l acc H; simpl.
  - now rewrite app_nil_r.
  - replace (l ++ v :: verses) with ((l ++ [v]) ++ verses)
      by (now rewrite <- app_assoc).
    apply IH. now apply grouped_push.
Qed.

Lemma versesByDay_grouped verses : grouped verses (versesByDay verses).
Proof.
  apply (@grouped_fold verses [] []). split; [constructor|].
  split; simpl; [|contradiction]. intros d. split; [contradiction|].
  intros [v [[] _]].
Qed.

Lemma insertDay_In d e l : In e (insertDay d l) <-> e = d \/ In e l.
Proof.
  induction l as [|x l IH]; simpl; [intuition|].
  destruct (d <=? x)%Z; simpl; [intuition|]. rewrite IH. intuition.
Qed.

Lemma sortDays_In e l : In e (sortDays l) <-> In e l.
Proof.
  induction l as [|x l IH]; simpl; [tauto|].
  rewrite insertDay_In, IH. intuition.
Qed.

Lemma insertDay_sorted d l :
  ~ In d l -> StronglySorted Z.lt l -> StronglySorted Z.lt (insertDay d l).
Proof.
  induction l as [|x l IH]; simpl; intros Hno Hs.
  - repeat constructor.
  - inversion Hs as [|? ? Hl Hx]; subst.
    destruct (d <=? x)%Z eqn:E.
    + apply Z.leb_le in E. assert (d < x)%Z by (assert (x <> d) by auto; lia).
      constructor; [exact Hs|]. constructor; [assumption|].
      eapply Forall_impl; [|exact Hx]. intros; simpl in *; lia.
    + apply Z.leb_gt in E. constructor; [apply IH; auto|].
      apply Forall_forall. intros e He. apply insertDay_In in He.
      destruct He as [->|He]; [exact E|].
      rewrite Forall_forall in Hx. now apply Hx.
Qed.

Lemma sortDays_sorted l : NoDup l -> StronglySorted Z.lt (sortDays l).
Proof.
  induction l as [|x l IH]; simpl; intros Hnd; [constructor|].
  inversion Hnd; subst. apply insertDay_sorted; [|auto].
  now rewrite sortDays_In.
Qed.

(** X17. Grouping the verses by day shows each verse once, under its own
    day: the sections come in strictly rising order of day, there is a
    section for a day exactly when some verse has that day, and the
    section of a day holds the verses of that day, all of them, in the
    order of the list. *)
Theorem verses_grouped_by_day :
  forall (verses : list OpeningVerse),
    StronglySorted Z.lt (map fst (sections verses)) /\
    (forall d, In d (map fst (sections verses)) <->
               exists v, In v verses /\ day v = d) /\
    (forall d group, In (d, group) (sections verses) ->
       group = filter (fun v => (day v =? d)%Z) verses /\ group <> []).
Proof.
  intros verses. destruct (versesByDay_grouped verses) as [Hnd [Hkeys Hlook]].
  assert (Hfst : map fst (sections verses) = sortedDays verses).
  { unfold sections. rewrite map_map. simpl. apply map_id. }
  rewrite Hfst. unfold sortedDays. split; [now apply sortDays_sorted|].
  split.
  - intros d. now rewrite sortDays_In.
  - intros d group Hin. unfold sections in Hin. apply in_map_iff in Hin.
    destruct Hin as [d0 [E Hd]]. injection E as -> <-.
    unfold sortedDays in Hd. apply (proj1 (sortDays_In _ _)) in Hd.
    rewrite (Hlook _ Hd). split; [reflexivity|].
    apply Hkeys in Hd. destruct Hd as [v [Hv Ev]].
    assert (Hin : In v (filter (fun v => (day v =? d)%Z) verses)).
    { apply filter_In. split; [exact Hv|]. now apply Z.eqb_eq. }
    intros E. now rewrite E in Hin.
Qed.

(** X18. Deleting a verse: when the confirmation is declined nothing is
    sent and nothing changes; when it is given, one DELETE for that id is
    sent, and once accepted the page drops exactly the verses with that id,
    keeping the others in their order; a rejected call leaves the verses
    as they were. *)
Theorem verse_delete_effect :
  forall (s : State) (verseId : jsstring) (r : Response),
    Calls.calls Calls.answering (VerseActions.handleDelete false verseId s) [r]
    = [] /\
    Calls.playTask (VerseActions.handleDelete false verseId s) [r] = s /\
    Calls.calls Calls.answering (VerseActions.handleDelete true verseId s) [r]
    = [Calls.DeleteVerse verseId] /\
    let s' := Calls.playTask (VerseActions.handleDelete true verseId s) [r] in
    (r = Rejected -> verses s' = verses s /\ error s' <> None) /\
    (r <> Rejected ->
       verses s' = filter (fun v => negb (streq (verse_id v) verseId))
                          (verses s) /\
       forall v, In v (verses s') <-> In v (verses s) /\ verse_id v <> verseId).
Proof.
  intros s verseId r. split; [reflexivity|]. split; [reflexivity|].
  split; [destruct r; reflexivity|]. cbv zeta. split.
  - intros ->. split; [reflexivity|discriminate].
  - intros Hr.
    assert (E : verses (Calls.playTask
                          (VerseActions.handleDelete true verseId s) [r])
                = filter (fun v => negb (streq (verse_id v) verseId))
                         (verses s))
      by (destruct r; [congruence| | |]; reflexivity).
    split; [exact E|]. intros v. rewrite E, filter_In, negb_true_iff.
    now rewrite streq_neq.
Qed.

Lemma verse_delete_effect_witness :
  verses (Calls.playTask
            (VerseActions.handleDelete true (lit "v1")
               (Sample.verseForm "" "" 1)) [Done]) = [].
Proof.
  destruct (@verse_delete_effect (Sample.verseForm "" "" 1) (lit "v1") Done)
    as [_ [_ [_ [_ H]]]].
  destruct H as [E _]; [discriminate|]. rewrite E. reflexivity.
Defined.

End VerseMore.

(** ** The submission form *)

Module SubmitMore.
Import SubmitPage SubmitWizard.

Lemma isNone_true {A} (o : option A) : isNone o = true <-> o = None.
Proof. destruct o; simpl; split; congruence. Qed.

Lemma isNone_false {A} (o : option A) : isNone o = false <-> o <> None.
Proof. destruct o; simpl; split; congruence. Qed.

(** X19. [validateForm] returns true exactly when a verse is chosen and
    the chosen method has its payload: for a manual entry at least 20 code
    units of trimmed content, for an upload a file, for a recording an
    audio file.  It does not ask for a method to be chosen. *)
Theorem validateForm_accepts_exactly :
  forall (s : State),
    snd (validateForm s) = true <->
    inspiredByVerse s <> [] /\
    (submissionMethod s = Some manual ->
       20 <= List.length (trim (content s))) /\
    (submissionMethod s = Some upload -> selectedFile s <> None) /\
    (submissionMethod s = Some recording -> audioFile s <> None).
Proof.
  intros s. unfold validateForm, noKeys, newErrors, isMethod. simpl.
  destruct (inspiredByVerse s) as [|c v]; simpl.
  - rewrite !andb_false_r. split; [discriminate|]. intros [H _]. congruence.
  - rewrite andb_true_r.
    destruct (submissionMethod s) as [[| |]|]; simpl.
    + destruct (selectedFile s); simpl; split; try discriminate; intros H;
        try reflexivity.
      * repeat split; discriminate.
      * destruct H as [_ [_ [H _]]]. now specialize (H eq_refl).
    + destruct (audioFile s); simpl; split; try discriminate; intros H;
        try reflexivity.
      * repeat split; discriminate.
      * destruct H as [_ [_ [_ H]]]. now specialize (H eq_refl).
    + destruct (trim (content s)) as [|c0 t] eqn:E; simpl.
      * split; [discriminate|]. intros [_ [H _]]. specialize (H eq_refl).
        simpl in H. lia.
      * destruct (Nat.ltb_spec (S (List.length t)) 20); simpl; split;
          try discriminate; intros H'; try reflexivity.
        -- destruct H' as [_ [H' _]]. specialize (H' eq_refl). lia.
        -- repeat split; try discriminate. intros _. exact H.
    + split; [|reflexivity]. intros _. repeat split; discriminate.
Qed.

(** The call that goes with the method of the form. *)
Lemma handleSubmit_call token s rq k :
  handleSubmit token s = Http rq k ->
  snd (validateForm s) = true /\ truthy_opt token = true /\
  match submissionMethod s with
  | Some manual =>
      rq = PostPoemManual (poemType s) (content s) (language s)
                          (inspiredByVerse s)
  | Some upload =>
      exists f, selectedFile s = Some f /\
                rq = PostPoemUpload (poemType s) (language s) upload
                                    (inspiredByVerse s) f
  | Some recording =>
      exists f, audioFile s = Some f /\
                rq = PostPoemUpload (poemType s) (language s) recording
                                    (inspiredByVerse s) f
  | None => False
  end.
Proof.
  unfold handleSubmit, validateForm. cbv zeta. simpl.
  destruct (noKeys (newErrors s)) eqn:V; simpl; [|discriminate].
  destruct (truthy_opt token) eqn:T; simpl; [|discriminate].
  destruct (submissionMethod s) as [[| |]|]; simpl.
  - destruct (selectedFile s) as [f|]; [|discriminate].
    intros H. injection H as <- _. repeat split. now exists f.
  - destruct (audioFile s) as [f|]; [|discriminate].
    intros H. injection H as <- _. repeat split. now exists f.
  - intros H. injection H as <- _. repeat split.
  - discriminate.
Qed.

(** X20. [handleSubmit] calls the back end exactly when the form is valid,
    a session token is present and a method is chosen, and the call is the
    one of the method.  With a valid form and a token but no method chosen
    it sends nothing and still reports success. *)
Theorem handleSubmit_calls_exactly :
  forall (token : option jsstring) (s : State),
    ((exists rq k, handleSubmit token s = Http rq k) <->
     snd (validateForm s) = true /\ truthy_opt token = true /\
     submissionMethod s <> None) /\
    (forall rq k, handleSubmit token s = Http rq k ->
       match submissionMethod s with
       | Some manual =>
           rq = PostPoemManual (poemType s) (content s) (language s)
                               (inspiredByVerse s)
       | Some upload =>
           exists f, selectedFile s = Some f /\
                     rq = PostPoemUpload (poemType s) (language s) upload
                                         (inspiredByVerse s) f
       | Some recording =>
           exists f, audioFile s = Some f /\
                     rq = PostPoemUpload (poemType s) (language s) recording
                                         (inspiredByVerse s) f
       | None => False
       end) /\
    (snd (validateForm s) = true -> truthy_opt token = true ->
     submissionMethod s = None ->
     exists s', handleSubmit token s = Ret s' /\ submitSuccess s' = true).
Proof.
  intros token s. split; [|split].
  - split.
    + intros [rq [k H]]. destruct (handleSubmit_call _ _ H) as [V [T M]].
      split; [exact V|]. split; [exact T|].
      destruct (submissionMethod s); [discriminate|contradiction].
    + intros [V [T M]]. pose proof (proj1 (validateForm_accepts_exactly s) V)
        as [_ [_ [Hf Ha]]].
      unfold handleSubmit. unfold validateForm in *. simpl in V.
      cbv zeta. rewrite V, T. simpl.
      destruct (submissionMethod s) as [[| |]|]; [| | |congruence].
      * destruct (selectedFile s); [|now specialize (Hf eq_refl)].
        eexists; eexists; reflexivity.
      * destruct (audioFile s); [|now specialize (Ha eq_refl)].
        eexists; eexists; reflexivity.
      * eexists; eexists; reflexivity.
  - intros rq k H. now destruct (handleSubmit_call _ _ H) as [_ [_ M]].
  - intros V T M. unfold handleSubmit. unfold validateForm in *. simpl in V.
    cbv zeta. rewrite V, T. simpl. rewrite M.
    eexists. split; reflexivity.
Qed.

Lemma handleSubmit_calls_exactly_witness :
  exists s',
    handleSubmit Sample.token
      {| poemType := Some full; language := English;
         inspiredByVerse := lit "v1"; submissionMethod := None;
         content := []; selectedFile := None; audioFile := None;
         submitSuccess := false; loading := false; error := None;
         errors := noErrors |} = Ret s'
    /\ submitSuccess s' = true.
Proof.
  refine (proj2 (proj2 (handleSubmit_calls_exactly Sample.token _)) _ _ _);
    reflexivity.
Defined.

Lemma handleSubmit_keeps W (serve : Request -> W -> Response * W) token s w :
  let s' := fst (run serve (handleSubmit token s) w) in
  poemType s' = poemType s /\ submissionMethod s' = submissionMethod s /\
  inspiredByVerse s' = inspiredByVerse s /\ content s' = content s /\
  language s' = language s /\ selectedFile s' = selectedFile s /\
  audioFile s' = audioFile s.
Proof.
  unfold handleSubmit, validateForm. cbv zeta.
  destruct (negb (noKeys (newErrors s)) || negb (truthy_opt token)); simpl;
    [repeat split|].
  destruct (submissionMethod s) as [[| |]|]; simpl.
  - destruct (selectedFile s); simpl; [|repeat split].
    destruct (serve _ w) as [r w']. destruct r; simpl; repeat split.
  - destruct (audioFile s); simpl; [|repeat split].
    destruct (serve _ w) as [r w']. destruct r; simpl; repeat split.
  - destruct (serve _ w) as [r w']. destruct r; simpl; repeat split.
  - repeat split.
Qed.

Lemma click_consistent c s : consistent s -> consistent (click c s).
Proof.
  intros [H1 H2]. unfold click.
  destruct (rendered c s) eqn:R; [|now split].
  destruct c; simpl in R; unfold consistent; simpl;
    repeat (apply andb_true_iff in R; destruct R as [R ?]);
    try (split; [exact H1|exact H2]).
  - match goal with H : isNone (poemType s) = true |- _ =>
      apply isNone_true in H end.
    split.
    + intros Hm. destruct (H1 Hm) as [Hp _]. congruence.
    + intros Hm. assert (Hm' : submissionMethod s <> None) by congruence.
      destruct (H1 Hm') as [Hp _]. congruence.
  - match goal with H : isNone (submissionMethod s) = true |- _ =>
      apply isNone_true in H end.
    split; intros Hm; congruence.
  - match goal with H : isNone (submissionMethod s) = true |- _ =>
      apply isNone_true in H end.
    split; intros Hm; congruence.
  - unfold isSome in *. split.
    + intros _. split; [|assumption].
      destruct (poemType s); [discriminate|discriminate].
    + intros Hm. injection Hm as ->.
      destruct (poemType s) as [[|]|]; try discriminate. reflexivity.
  - split; [congruence|discriminate].
Qed.

Lemma exec_consistent evs :
  forall s script, consistent s -> consistent (fst (exec evs s script)).
Proof.
  induction evs as [|e evs IH]; intros s script Hs; simpl; [exact Hs|].
  assert (H1 : consistent (fst (run scripted (handle e s) script))).
  { destruct e as [c|token]; simpl; [now apply click_consistent|].
    destruct (@handleSubmit_keeps _ scripted token s script)
      as [Ep [Em [Ev _]]].
    destruct Hs as [H1 H2]. unfold consistent. rewrite Ep, Em, Ev.
    now split. }
  destruct (run scripted (handle e s) script) as [s1 w1]. now apply IH.
Qed.

(** X21. Through the steps of the form a recording can only be chosen for
    individual abyat, and a method only after a type and a verse.  So in
    every state the form can reach, whatever was clicked, typed or
    submitted before, a submission that is sent carries a poem type and a
    verse, and a recording that is sent is an individual abyat: the form
    never posts the recording of a full Nazam. *)
Theorem form_never_posts_a_full_recording :
  forall (s : State) (token : option jsstring) (rq : Request)
         (k : Response -> Prog State),
    reachable s ->
    handleSubmit token s = Http rq k ->
    match rq with
    | PostPoemManual t _ _ verse => t <> None /\ verse <> []
    | PostPoemUpload t _ m verse _ =>
        t <> None /\ verse <> [] /\ (m = recording -> t = Some individual)
    | _ => False
    end.
Proof.
  intros s token rq k [evs [script ->]] H.
  assert (Hc : consistent (fst (exec evs initial script))).
  { apply exec_consistent. split; simpl; [congruence|discriminate]. }
  destruct Hc as [H1 H2]. apply handleSubmit_call in H.
  destruct H as [_ [_ M]].
  destruct (submissionMethod (fst (exec evs initial script)))
    as [[| |]|] eqn:Em; [| | |contradiction].
  - destruct M as [f [_ ->]]. destruct H1 as [Hp Hv]; [discriminate|].
    split; [exact Hp|]. split; [|discriminate].
    intros E. rewrite E in Hv. discriminate.
  - destruct M as [f [_ ->]]. destruct H1 as [Hp Hv]; [discriminate|].
    split; [exact Hp|]. split; [|auto].
    intros E. rewrite E in Hv. discriminate.
  - subst rq. destruct H1 as [Hp Hv]; [discriminate|].
    split; [exact Hp|]. intros E. rewrite E in Hv. discriminate.
Qed.

Lemma form_never_posts_a_full_recording_witness :
  let s := fst (exec [Clicked (ChooseType full);
                      Clicked (ChooseVerse (lit "v1"));
                      Clicked (ChooseMethod recording);
                      Clicked (ChooseMethod upload);
                      Clicked (PickFile (Some {| file_name := lit "n.txt" |}))]
                     initial []) in
  submissionMethod s = Some upload /\
  exists k, handleSubmit Sample.token s
            = Http (PostPoemUpload (Some full) English upload (lit "v1")
                                   {| file_name := lit "n.txt" |}) k.
Proof.
  intros s. split; [reflexivity|].
  assert (Hreach : reachable s) by (subst s; eexists; eexists; reflexivity).
  assert (Hcall : exists k, handleSubmit Sample.token s
            = Http (PostPoemUpload (Some full) English upload (lit "v1")
                                   {| file_name := lit "n.txt" |}) k)
    by (eexists; reflexivity).
  destruct Hcall as [k Hk].
  pose proof (@form_never_posts_a_full_recording s Sample.token _ k
                Hreach Hk) as [_ _].
  now exists k.
Defined.

(** X22. "Submit Another Nazm" only hides the thank-you pane: it does not
    empty the form.  After a submission that was sent and accepted, that
    click followed by Submit sends the same call once more (the page
    leaves for the list of submissions three seconds after a success;
    this is what the two handlers do until then). *)
Theorem submit_another_resends :
  forall (s : State) (token : option jsstring) (rq : Request)
         (k : Response -> Prog State) (r : Response),
    handleSubmit token s = Http rq k ->
    r <> Rejected ->
    let s1 := play (handleSubmit token s) [r] in
    submitSuccess s1 = true /\
    exists k', handleSubmit token (click SubmitAnother s1) = Http rq k'.
Proof.
  intros s token rq k r H Hr s1.
  pose proof (@handleSubmit_keeps _ scripted token s [r])
    as [Ep [Em [Ev [Ec [El [Ef Ea]]]]]].
  fold (play (handleSubmit token s) [r]) in Ep, Em, Ev, Ec, El, Ef, Ea.
  fold s1 in Ep, Em, Ev, Ec, El, Ef, Ea.
  assert (Hs : submitSuccess s1 = true).
  { subst s1. rewrite H. unfold play. simpl.
    pose proof H as H'. unfold handleSubmit, validateForm in H'.
    cbv zeta in H'.
    destruct (negb (noKeys (newErrors s)) || negb (truthy_opt token));
      [discriminate|].
    destruct (submissionMethod s) as [[| |]|]; simpl in H'.
    - destruct (selectedFile s); [|discriminate]. injection H' as _ <-.
      destruct r; [congruence| | |]; reflexivity.
    - destruct (audioFile s); [|discriminate]. injection H' as _ <-.
      destruct r; [congruence| | |]; reflexivity.
    - injection H' as _ <-. destruct r; [congruence| | |]; reflexivity.
    - discriminate. }
  split; [exact Hs|].
  destruct (handleSubmit_call _ _ H) as [V [T M]].
  set (s2 := click SubmitAnother s1).
  assert (E2 : poemType s2 = poemType s /\ submissionMethod s2 = submissionMethod s
               /\ inspiredByVerse s2 = inspiredByVerse s /\ content s2 = content s
               /\ language s2 = language s /\ selectedFile s2 = selectedFile s
               /\ audioFile s2 = audioFile s).
  { subst s2. unfold click. simpl. rewrite Hs. simpl. tauto. }
  destruct E2 as [Fp [Fm [Fv [Fc [Fl [Ff Fa]]]]]].
  assert (V2 : noKeys (newErrors s2) = true).
  { unfold validateForm in V. simpl in V. rewrite <- V.
    unfold newErrors, isMethod. now rewrite Fm, Fv, Fc, Ff, Fa. }
  unfold handleSubmit, validateForm. cbv zeta. rewrite V2, T. simpl.
  rewrite Fm, Fp, Fv, Fc, Fl, Ff, Fa.
  destruct (submissionMethod s) as [[| |]|]; [| | |contradiction].
  - destruct M as [f [-> ->]]. eexists. reflexivity.
  - destruct M as [f [-> ->]]. eexists. reflexivity.
  - subst rq. eexists. reflexivity.
Qed.

Lemma submit_another_resends_witness :
  let s := Sample.manualForm "Roses of the dawn 20" in
  let s1 := play (handleSubmit Sample.token s) [Done] in
  exists k', handleSubmit Sample.token (click SubmitAnother s1)
             = Http (PostPoemManual (Some individual)
                       (lit "Roses of the dawn 20") English (lit "v1")) k'.
Proof.
  intros s s1.
  assert (Hcall : exists k, handleSubmit Sample.token s
            = Http (PostPoemManual (Some individual)
                      (lit "Roses of the dawn 20") English (lit "v1")) k)
    by (eexists; reflexivity).
  destruct Hcall as [k Hk].
  assert (Hr : Done <> Rejected) by discriminate.
  exact (proj2 (@submit_another_resends s Sample.token _ k Done Hk Hr)).
Defined.

End SubmitMore.

(** ** The checking page *)

Module CheckingMore.
Import CheckingPage CheckingActions.

Lemma unique_by_id l p q :
  uniqueIds l -> In p l -> In q l -> id p = id q -> p = q.
Proof.
  unfold uniqueIds. induction l as [|x l IH]; simpl; [contradiction|].
  intros Hnd Hp Hq E. inversion Hnd as [|? ? Hnot Hnd']; subst.
  destruct Hp as [->|Hp], Hq as [->|Hq]; auto.
  - exfalso. apply Hnot. rewrite E. now apply in_map.
  - exfalso. apply Hnot. rewrite <- E. now apply in_map.
Qed.

Lemma set_status_back p :
  set_status (status p) (set_status (otherStatus p) p) = p.
Proof. now destruct p. Qed.

Lemma play_status i st s r :
  r <> Rejected ->
  poems (play (handleStatusUpdate i st s) [r])
  = map (fun poem => if streq (id poem) i then set_status st poem else poem)
        (poems s).
Proof. intros Hr. destruct r; [congruence| | |]; reflexivity. Qed.

(** X23. The status button is its own inverse: with unique ids, pressing
    it on a poem and then again on the same card, both calls accepted,
    gives back the list as it was; after the first press the poem has the
    other status. *)
Theorem status_toggle_twice_restores :
  forall (s : State) (p : Poem) (r1 r2 : Response),
    uniqueIds (poems s) -> In p (poems s) ->
    r1 <> Rejected -> r2 <> Rejected ->
    let s1 := play (toggleStatus p s) [r1] in
    let p1 := set_status (otherStatus p) p in
    In p1 (poems s1) /\ status p1 <> status p /\
    poems (play (toggleStatus p1 s1) [r2]) = poems s.
Proof.
  intros s p r1 r2 Hu Hp Hr1 Hr2 s1 p1.
  assert (E1 : poems s1
               = map (fun poem => if streq (id poem) (id p)
                                  then set_status (otherStatus p) poem
                                  else poem) (poems s))
    by (apply play_status; exact Hr1).
  split; [|split].
  - rewrite E1. apply in_map_iff. exists p. now rewrite streq_refl.
  - unfold p1, otherStatus. simpl. destruct (status p); discriminate.
  - unfold toggleStatus. rewrite (play_status _ _ _ Hr2), E1, map_map.
    rewrite <- (map_id (poems s)) at 2. apply map_ext_in. intros q Hq.
    assert (Eo : otherStatus p1 = status p)
      by (unfold p1, otherStatus; simpl; now destruct (status p)).
    rewrite Eo. change (id p1) with (id p).
    destruct (streq (id q) (id p)) eqn:S.
    + simpl. rewrite S. apply streq_eq in S.
      rewrite (@unique_by_id (poems s) q p Hu Hq Hp S).
      apply set_status_back.
    + now rewrite S.
Qed.

Lemma status_toggle_twice_restores_witness :
  let s := Sample.correcting "a" in
  let a := formatPoem (Sample.apiPoem "a" true (Some 4%Q) false) in
  status (set_status (otherStatus a) a) = araz_done /\
  poems (play (toggleStatus (set_status (otherStatus a) a)
                 (play (toggleStatus a s) [Done])) [Done]) = poems s.
Proof.
  intros s a.
  assert (Hu : uniqueIds (poems s)).
  { unfold uniqueIds. vm_compute.
    repeat constructor; simpl; intuition discriminate. }
  assert (Ha : In a (poems s)) by (left; reflexivity).
  assert (Hr : Done <> Rejected) by discriminate.
  split; [reflexivity|].
  exact (proj2 (proj2 (@status_toggle_twice_restores s a Done Done
                         Hu Ha Hr Hr))).
Defined.

(** X24. [handleArazUpload] calls the back end only for a poem that the
    page list shows as approved, only with a session token, and only with
    a corrected text or a file: whenever it sends a call, the call is the
    upload for the selected id, the poem found under that id is approved,
    and the text goes out as typed, or not at all when it is blank. *)
Theorem araz_upload_only_for_approved :
  forall (token : option jsstring) (s : State) (rq : Request)
         (k : Response -> Prog State),
    handleArazUpload token s = Http rq k ->
    exists i e,
      selectedPoemId s = Some i /\ i <> [] /\
      findById i (poems s) = Some e /\ approved e = true /\
      truthy_opt token = true /\
      (trim (arazText s) <> [] \/ selectedFile s <> None) /\
      rq = PostAraz i (if truthy (trim (arazText s))
                       then Some (arazText s) else None)
                    (selectedFile s).
Proof.
  intros token s rq k. unfold handleArazUpload.
  destruct (selectedPoemId s) as [i|]; [|discriminate].
  destruct (truthy i) eqn:Ti; simpl; [|discriminate].
  destruct (negb (truthy (trim (arazText s))) && isNone (selectedFile s))
    eqn:G; simpl; [discriminate|].
  destruct (truthy_opt token) eqn:T; simpl; [|discriminate].
  destruct (findById i (poems s)) as [e|] eqn:F; [|discriminate].
  destruct (approved e) eqn:A; simpl; [|discriminate].
  intros H. injection H as <- _. exists i, e.
  repeat split; auto.
  - intros ->. discriminate.
  - apply andb_false_iff in G. destruct G as [G|G].
    + left. apply negb_false_iff in G. intros E. rewrite E in G. discriminate.
    + right. intros E. rewrite E in G. discriminate.
Qed.

Lemma araz_upload_only_for_approved_witness :
  exists e, findById (lit "a") (poems (Sample.correcting "a")) = Some e
            /\ approved e = true.
Proof.
  assert (Hcall : exists rq k,
            handleArazUpload Sample.token (Sample.correcting "a") = Http rq k)
    by (eexists; eexists; reflexivity).
  destruct Hcall as [rq [k Hk]].
  destruct (araz_upload_only_for_approved _ _ Hk)
    as [i [e [Hsel [_ [Hf [Ha _]]]]]].
  injection Hsel as <-. now exists e.
Defined.

Lemma filteredPoems_In s p :
  In p (filteredPoems s) <->
  In p (poems s) /\
  ListSpec.chosen (statusFilter s) (status_str (status p)) = true /\
  ListSpec.chosen (typeFilter s) (type_str (type p)) = true /\
  ListSpec.chosen (languageFilter s) (language_str (language p)) = true.
Proof.
  unfold filteredPoems. cbv zeta.
  rewrite (FilterFacts.step_chosen (statusFilter s)
             (fun poem => status_str (status poem))).
  rewrite (FilterFacts.step_chosen (typeFilter s)
             (fun poem => type_str (type poem))).
  rewrite (FilterFacts.step_chosen (languageFilter s)
             (fun poem => language_str (language poem))).
  rewrite !filter_In. tauto.
Qed.

(** X25. A correction moves the poem between the views of the status
    select: after an accepted upload for an approved poem [e], no poem
    with [e]'s id is left in the filtered list when the select stands on
    "araz_pending", and the corrected poem is in the filtered list when
    the selects stand on "araz_done", "all" and "all". *)
Theorem correction_leaves_the_pending_view :
  forall (s : State) (e : Poem) (token : option jsstring) (r : Response),
    selectedPoemId s = Some (id e) ->
    findById (id e) (poems s) = Some e ->
    truthy (id e) = true -> truthy_opt token = true ->
    (trim (arazText s) <> [] \/ selectedFile s <> None) ->
    approved e = true -> r <> Rejected ->
    let s' := play (handleArazUpload token s) [r] in
    (statusFilter s = lit "araz_pending" ->
       forall p, In p (filteredPoems s') -> id p <> id e) /\
    (statusFilter s = lit "araz_done" -> typeFilter s = lit "all" ->
     languageFilter s = lit "all" ->
       In (set_araz (Some (arazText s)) araz_done e) (filteredPoems s')).
Proof.
  intros s e token r Hsel Hfind Hid Htok Hpay Hok Hr s'.
  destruct (@ArazFacts.play_araz token s e r Hsel Hfind Hid Htok Hpay Hok Hr)
    as [_ Hpoems]. fold s' in Hpoems.
  assert (Hf : statusFilter s' = statusFilter s /\ typeFilter s' = typeFilter s
               /\ languageFilter s' = languageFilter s).
  { subst s'. unfold handleArazUpload.
    rewrite Hsel, Hid, Htok, Hfind, Hok.
    destruct (negb (truthy (trim (arazText s))) && isNone (selectedFile s));
      simpl; [tauto|].
    destruct r; unfold play; simpl; tauto. }
  destruct Hf as [Fs [Ft Fl]]. split.
  - intros Hpend p Hp Hpe. apply filteredPoems_In in Hp.
    destruct Hp as [Hin [Hst _]]. rewrite Fs, Hpend in Hst.
    rewrite Hpoems in Hin. apply in_map_iff in Hin.
    destruct Hin as [p0 [E _]].
    destruct (streq (id p0) (id e)) eqn:S.
    + subst p. destruct p0; vm_compute in Hst; discriminate Hst.
    + subst p. apply streq_neq in S. congruence.
  - intros Hd Ht Hl. apply filteredPoems_In. rewrite Fs, Ft, Fl, Hd, Ht, Hl.
    split; [|split; [reflexivity|split; reflexivity]].
    rewrite Hpoems. apply in_map_iff. exists e. rewrite streq_refl.
    split; [reflexivity|]. apply find_some in Hfind. tauto.
Qed.

Lemma correction_leaves_the_pending_view_witness :
  let a := formatPoem (Sample.apiPoem "a" true (Some 4%Q) false) in
  let s := {| poems := adminView Sample.stored;
              selectedPoemId := Some (lit "a");
              statusFilter := lit "araz_done";
              typeFilter := lit "all"; languageFilter := lit "all";
              showArazUploadModal := true;
              arazText := lit "The morning light";
              selectedFile := None; loading := false; error := None |} in
  In (set_araz (Some (arazText s)) araz_done a)
     (filteredPoems (play (handleArazUpload Sample.token s) [Done])).
Proof.
  intros a s.
  assert (Hpay : trim (arazText s) <> [] \/ selectedFile s <> None)
    by (left; vm_compute; discriminate).
  assert (Hr : Done <> Rejected) by discriminate.
  exact (proj2 (@correction_leaves_the_pending_view s a Sample.token Done
                  eq_refl eq_refl eq_refl eq_refl Hpay eq_refl Hr)
               eq_refl eq_refl eq_refl).
Defined.

End CheckingMore.

(** ** The review page *)

Module ReviewMore.
Import ReviewPage ReviewActions Calls.

(** X26. The page sends a rating only for a poem its list shows as
    approved, and never the rating 0: when rating a poem through the page,
    the dialog being closed at the start, leads to a call, the call is the
    rating of that poem with the chosen value, the value is not 0 and the
    poem found under the id is approved. *)
Theorem rating_sent_only_for_approved :
  forall (token : option jsstring) (poemId : jsstring) (v : Q) (s : State)
         (rq : Request) (k : Response -> Prog State),
    showRatingModal s = false ->
    ratePoem token poemId v s = Http rq k ->
    rq = PutRate poemId v /\ ~ (v == 0)%Q /\ poemId <> [] /\
    truthy_opt token = true /\
    exists e, findById poemId (poems s) = Some e /\ approved e = true.
Proof.
  intros token poemId v s rq k Hclosed. unfold ratePoem, openRatingModal.
  destruct (findById poemId (poems s)) as [e|] eqn:F;
    [|simpl; rewrite Hclosed; discriminate].
  destruct (approved e) eqn:A; simpl; [|rewrite Hclosed; discriminate].
  unfold handleRatePoem. simpl.
  destruct (truthy poemId) eqn:Ti; simpl; [|discriminate].
  destruct (Qeq_bool v 0) eqn:Z; simpl; [discriminate|].
  destruct (truthy_opt token) eqn:T; simpl; [|discriminate].
  intros H. injection H as <- _. split; [reflexivity|]. split.
  - intros E. apply Qeq_bool_iff in E. congruence.
  - split; [intros ->; discriminate|]. split; [reflexivity|]. now exists e.
Qed.

Lemma rating_sent_only_for_approved_witness :
  exists e, findById (lit "a") (poems Sample.reviewing) = Some e
            /\ approved e = true.
Proof.
  assert (Hcall : exists rq k,
            ratePoem Sample.token (lit "a") (Qmake 9 2) Sample.reviewing
            = Http rq k) by (eexists; eexists; reflexivity).
  destruct Hcall as [rq [k Hk]].
  exact (proj2 (proj2 (proj2 (proj2
           (@rating_sent_only_for_approved Sample.token (lit "a") (Qmake 9 2)
              Sample.reviewing rq k eq_refl Hk))))).
Defined.

(** X27. The Approve button of a card runs the [handleApprove] of the
    render that drew it, which still sees the old selection.  With nothing
    selected it therefore sends no call at all: it only selects the poem,
    which opens the details dialog, whose own Approve button then sends
    the approval of that poem.  With another poem still selected it sends
    the approval of that other poem. *)
Theorem card_approve_uses_old_selection :
  forall (poem : Poem) (token : option jsstring) (s : State),
    (truthy_opt (selectedPoemId s) = false ->
       approveButton poem token s = Stop (select (Some (id poem)) s) /\
       (truthy_opt token = true -> id poem <> [] ->
          exists k, handleApprove token (select (Some (id poem)) s)
                    = Await (PutApprove (id poem)) k) /\
       (id poem <> [] -> showRatingModal s = false ->
          detailsShown (select (Some (id poem)) s)
          = findById (id poem) (poems s))) /\
    (forall j, selectedPoemId s = Some j -> j <> [] ->
       truthy_opt token = true ->
       exists k, approveButton poem token s = Await (PutApprove j) k).
Proof.
  intros poem token s. split.
  - intros Hno. split; [|split].
    + unfold approveButton, approveFrom.
      destruct (selectedPoemId s) as [[|c j]|]; try reflexivity.
      discriminate.
    + intros T Hid. unfold handleApprove, approveFrom. simpl.
      destruct (id poem) as [|c i]; [congruence|]. simpl. rewrite T. simpl.
      eexists. reflexivity.
    + intros Hid Hclosed. unfold detailsShown. simpl.
      destruct (id poem) as [|c i]; [congruence|]. simpl.
      now rewrite Hclosed.
  - intros j Hj Hne T. unfold approveButton, approveFrom. rewrite Hj.
    destruct j as [|c j]; [congruence|]. simpl. rewrite T. simpl.
    eexists. reflexivity.
Qed.

Lemma card_approve_uses_old_selection_witness :
  let u := formatPoem (Sample.apiPoem "u" false None false) in
  calls answering (approveButton u Sample.token Sample.reviewing) [Done; Done]
  = [] /\
  calls answering
    (handleApprove Sample.token
       (playTask (approveButton u Sample.token Sample.reviewing) [Done; Done]))
    [Done; PoemList []]
  = [PutApprove (lit "u"); Known (GetPoems (params Sample.reviewing))].
Proof.
  intros u.
  destruct (card_approve_uses_old_selection u Sample.token Sample.reviewing)
    as [H _].
  destruct (H eq_refl) as [E _]. rewrite E. split; reflexivity.
Defined.

(** X28. Approve and Reject of the details dialog send one call for the
    selected poem (a PUT of the approval, a DELETE of the poem), then ask
    for the list again with the filters of the page.  When the list comes
    back the page shows it and clears the selection; when the first call
    is rejected no second call is sent and the list stays as it was. *)
Theorem approve_and_reject_refetch :
  forall (token : option jsstring) (s : State) (c : N) (i : jsstring)
         (answer : list ApiPoem),
    selectedPoemId s = Some (c :: i) -> truthy_opt token = true ->
    calls answering (handleApprove token s) [Done; PoemList answer]
    = [PutApprove (c :: i); Known (GetPoems (params s))] /\
    calls answering (handleReject token s) [Done; PoemList answer]
    = [DeletePoem (c :: i); Known (GetPoems (params s))] /\
    (forall t, t = handleApprove token s \/ t = handleReject token s ->
       poems (playTask t [Done; PoemList answer]) = adminView answer /\
       selectedPoemId (playTask t [Done; PoemList answer]) = None /\
       List.length (calls answering t [Rejected]) = 1 /\
       poems (playTask t [Rejected]) = poems s /\
       error (playTask t [Rejected]) <> None).
Proof.
  intros token s c i answer Hsel T.
  unfold handleApprove, handleReject, approveFrom, rejectFrom.
  rewrite Hsel. simpl. rewrite T. simpl.
  split; [reflexivity|]. split; [reflexivity|].
  intros t [->| ->]; repeat split; discriminate.
Qed.

Lemma approve_and_reject_refetch_witness :
  calls answering
    (handleReject Sample.token (select (Some (lit "u")) Sample.reviewing))
    [Done; PoemList [Sample.apiPoem "a" true (Some 4%Q) false]]
  = [DeletePoem (lit "u");
     Known (GetPoems (params Sample.reviewing))].
Proof.
  exact (proj1 (proj2 (@approve_and_reject_refetch Sample.token
                         (select (Some (lit "u")) Sample.reviewing)
                         117%N [] [Sample.apiPoem "a" true (Some 4%Q) false]
                         eq_refl eq_refl))).
Defined.

End ReviewMore.
